(** * Coffee shop bot: the SQLite repository and the handlers that use it

    A shallow embedding of [coffee_repository.py] (class [CoffeeRepository])
    and of the handlers of [main.py].  The list [coffees] of [coffees.py] is
    a parameter.

    The development has two levels.
    - [CoffeeRepository], [Main] and [Bot] give each statement, method and
      handler on arguments that SQLite holds as they are: integers of 64
      bits and prices that are numbers.
    - [Call] and [Event] give the methods and handlers as Python calls them,
      with what the binding of arguments and the column types add: the
      [OverflowError] of an integer outside 64 bits, the NULL of a value that
      is not a number, the limit of AUTOINCREMENT.

    Modelling conventions.
    - Python [int] and SQLite INTEGER values are [Z].
    - SQLite REAL values and Python [float] are IEEE binary64: [float].
    - TEXT values are byte strings ([string]), the UTF-8 encoding of the
      Python text; nullable columns are [option].
    - The database file is [database]: [None] is a file in which the two
      tables have not been created yet.
    - Every method opens a connection, runs statements in it, commits and
      closes it; [sqlite3.Error] is caught by the method and turned into its
      failure value.  That is the [cursor] monad and [method] below. *)

From Stdlib Require Import ZArith List String Ascii Bool Lia.
From Stdlib Require Import Sorting.Sorted Sorting.Permutation.
From Stdlib Require Import Floats DecimalString DecimalPos.
Import ListNotations.
Open Scope Z_scope.

(** ** Values *)

(** CURRENT_TIMESTAMP is a text value supplied by the engine. *)
Definition timestamp := string.
Bind Scope string_scope with timestamp.

(** Conversion of an INTEGER to REAL, as SQLite does before [c.price * ci.count]
    (round to nearest, ties to even). *)
Definition float_of_Z (z : Z) : float :=
  SF2Prim (binary_normalize prec emax z 0 false).

(** ** Rows of the two tables (schema of [initialize]) *)

(** A row of [coffees]. *)
Record coffee_row := mk_coffee {
  c_id : Z;
  c_name : string;
  c_description : option string;
  c_picture_url : option string;
  c_price : float;
  c_created_at : timestamp;
  c_updated_at : timestamp
}.

(** A row of [cart_items]. *)
Record cart_row := mk_cart_item {
  ci_id : Z;
  ci_user_id : Z;
  ci_coffee_id : Z;
  ci_count : Z;
  ci_created_at : timestamp
}.

(** The two tables with their AUTOINCREMENT counters ([sqlite_sequence]). *)
Record tables := mk_tables {
  coffees : list coffee_row;
  coffees_seq : Z;
  cart_items : list cart_row;
  cart_items_seq : Z
}.

Definition database := option tables.

Definition empty_tables : tables := mk_tables [] 0 [] 0.

(** The store before [initialize] ever ran. *)
Definition empty_store : database := None.

Definition coffee_rows (f : database) : list coffee_row :=
  match f with Some t => coffees t | None => [] end.

Definition cart_rows (f : database) : list cart_row :=
  match f with Some t => cart_items t | None => [] end.

(** A row of the join computed by [get_cart_items]; [l_user_id] is present
    only in the query over all users. *)
Record cart_line := mk_line {
  l_user_id : option Z;
  l_coffee_id : Z;
  l_name : string;
  l_description : option string;
  l_picture_url : option string;
  l_price : float;
  l_count : Z;
  l_total_price : float
}.

(** ** Connections and the statement monad *)

(** An open connection: the foreign-key pragma of this connection, the
    committed content of the file and the content seen by the open
    transaction. *)
Record connection := mk_conn {
  foreign_keys : bool;
  committed : database;
  working : database
}.

(** [sqlite3.connect]: SQLite leaves foreign-key enforcement off in every new
    connection until [PRAGMA foreign_keys = ON] is executed; the repository
    never executes it. *)
Definition _connect (f : database) : connection :=
  mk_conn false f f.

(** [conn.close()]: what was not committed is rolled back. *)
Definition _disconnect (conn : connection) : database :=
  committed conn.

Inductive sqlite3_Error :=
| OperationalError (msg : string)
| IntegrityError (msg : string).

Inductive outcome (A : Type) :=
| Return (a : A)
| Raise (e : sqlite3_Error).
Arguments Return {A} a.
Arguments Raise {A} e.

Definition cursor (A : Type) := connection -> outcome A * connection.

Definition ret {A} (a : A) : cursor A := fun conn => (Return a, conn).

Definition bind {A B} (m : cursor A) (k : A -> cursor B) : cursor B :=
  fun conn =>
    match m conn with
    | (Return a, conn') => k a conn'
    | (Raise e, conn') => (Raise e, conn')
    end.

Notation "x <- m ;; k" := (bind m (fun x => k))
  (at level 61, m at next level, right associativity).
Notation "m ;;; k" := (bind m (fun _ => k))
  (at level 61, right associativity).

Definition raise {A} (e : sqlite3_Error) : cursor A :=
  fun conn => (Raise e, conn).

Definition commit : cursor unit :=
  fun conn => (Return tt, mk_conn (foreign_keys conn) (working conn) (working conn)).

Definition pragma_foreign_keys : cursor bool :=
  fun conn => (Return (foreign_keys conn), conn).

(** A statement that names a table fails when the tables do not exist. *)
Definition read_tables : cursor tables :=
  fun conn =>
    match working conn with
    | Some t => (Return t, conn)
    | None => (Raise (OperationalError "no such table"), conn)
    end.

Definition write_tables (t : tables) : cursor unit :=
  fun conn => (Return tt, mk_conn (foreign_keys conn) (committed conn) (Some t)).

(** [try: _connect(); body  except sqlite3.Error: return failure
    finally: _disconnect()], for a body whose statements raise nothing but
    [sqlite3.Error]; [call_method] below lets the other exceptions pass. *)
Definition method {A} (body : cursor A) (failure : A) (f : database) : A * database :=
  let '(r, conn) := body (_connect f) in
  (match r with Return a => a | Raise _ => failure end, _disconnect conn).

(** ** SQL statements *)

Definition max_rowid (ids : list Z) : Z := fold_right Z.max 0 ids.

(** AUTOINCREMENT: one more than the largest rowid that ever existed. *)
Definition next_rowid (seq : Z) (ids : list Z) : Z :=
  Z.max seq (max_rowid ids) + 1.

(** CREATE TABLE IF NOT EXISTS coffees; CREATE TABLE IF NOT EXISTS cart_items. *)
Definition create_tables_if_not_exists : cursor unit :=
  fun conn =>
    match working conn with
    | Some _ => (Return tt, conn)
    | None => write_tables empty_tables conn
    end.

(** INSERT INTO coffees (name, description, picture_url, price) VALUES (?,?,?,?);
    the result is [lastrowid].  [price] is the value that the column holds;
    [insert_into_coffees] below takes the price as Python passes it. *)
Definition insert_coffee (now : timestamp) (name : string)
    (description picture_url : option string) (price : float) : cursor Z :=
  t <- read_tables ;;
  let id := next_rowid (coffees_seq t) (map c_id (coffees t)) in
  write_tables
    (mk_tables (coffees t ++ [mk_coffee id name description picture_url price now now])
               id (cart_items t) (cart_items_seq t)) ;;;
  ret id.

(** UPDATE coffees SET name = ?, description = ?, picture_url = ?, price = ?,
    updated_at = CURRENT_TIMESTAMP WHERE id = ?; the result is [rowcount].
    [price] is the value that the column holds; [update_coffees_set] below
    takes the price as Python passes it. *)
Definition update_coffees (now : timestamp) (name : string)
    (description picture_url : option string) (price : float) (id : Z) : cursor Z :=
  t <- read_tables ;;
  write_tables
    (mk_tables
       (map (fun c => if c_id c =? id
                      then mk_coffee (c_id c) name description picture_url price
                                     (c_created_at c) now
                      else c) (coffees t))
       (coffees_seq t) (cart_items t) (cart_items_seq t)) ;;;
  ret (Z.of_nat (List.length (filter (fun c => c_id c =? id) (coffees t)))).

(** DELETE FROM coffees WHERE id = ?; the result is [rowcount].  The clause
    [ON DELETE CASCADE] of [cart_items.coffee_id] removes the cart rows that
    reference a deleted coffee when the connection enforces foreign keys. *)
Definition delete_coffees (id : Z) : cursor Z :=
  t <- read_tables ;;
  fk <- pragma_foreign_keys ;;
  let deleted := filter (fun c => c_id c =? id) (coffees t) in
  write_tables
    (mk_tables
       (filter (fun c => negb (c_id c =? id)) (coffees t))
       (coffees_seq t)
       (if fk
        then filter (fun ci => negb (existsb (fun c => c_id c =? ci_coffee_id ci) deleted))
                    (cart_items t)
        else cart_items t)
       (cart_items_seq t)) ;;;
  ret (Z.of_nat (List.length deleted)).

(** SELECT ... FROM coffees WHERE id = ?. *)
Definition select_coffees_by_id (id : Z) : cursor (list coffee_row) :=
  t <- read_tables ;;
  ret (filter (fun c => c_id c =? id) (coffees t)).

(** ORDER BY name: TEXT is compared byte by byte (BINARY collation); rows
    with equal names keep their table order. *)
Fixpoint insert_by_name (c : coffee_row) (l : list coffee_row) : list coffee_row :=
  match l with
  | [] => [c]
  | d :: l' =>
      if String.leb (c_name c) (c_name d) then c :: d :: l'
      else d :: insert_by_name c l'
  end.

Definition order_by_name (l : list coffee_row) : list coffee_row :=
  fold_right insert_by_name [] l.

(** SELECT ... FROM coffees ORDER BY name. *)
Definition select_coffees_order_by_name : cursor (list coffee_row) :=
  t <- read_tables ;;
  ret (order_by_name (coffees t)).

(** SELECT id, count FROM cart_items WHERE user_id = ? AND coffee_id = ?. *)
Definition select_cart_items (user_id coffee_id : Z) : cursor (list cart_row) :=
  t <- read_tables ;;
  ret (filter (fun ci => (ci_user_id ci =? user_id) && (ci_coffee_id ci =? coffee_id))
              (cart_items t)).

(** [cursor.fetchone()]. *)
Definition fetchone {A} (rows : list A) : option A := hd_error rows.

(** UPDATE cart_items SET count = ? WHERE id = ?. *)
Definition update_cart_items (new_count id : Z) : cursor unit :=
  t <- read_tables ;;
  write_tables
    (mk_tables (coffees t) (coffees_seq t)
       (map (fun ci => if ci_id ci =? id
                       then mk_cart_item (ci_id ci) (ci_user_id ci) (ci_coffee_id ci)
                                         new_count (ci_created_at ci)
                       else ci) (cart_items t))
       (cart_items_seq t)).

(** INSERT INTO cart_items (user_id, coffee_id, count) VALUES (?, ?, ?). *)
Definition insert_cart_item (now : timestamp) (user_id coffee_id count : Z) : cursor unit :=
  t <- read_tables ;;
  fk <- pragma_foreign_keys ;;
  if fk && negb (existsb (fun c => c_id c =? coffee_id) (coffees t))
  then raise (IntegrityError "FOREIGN KEY constraint failed")
  else
    let id := next_rowid (cart_items_seq t) (map ci_id (cart_items t)) in
    write_tables
      (mk_tables (coffees t) (coffees_seq t)
         (cart_items t ++ [mk_cart_item id user_id coffee_id count now])
         id).

(** DELETE FROM cart_items WHERE user_id = ?. *)
Definition delete_cart_items_of (user_id : Z) : cursor unit :=
  t <- read_tables ;;
  write_tables
    (mk_tables (coffees t) (coffees_seq t)
       (filter (fun ci => negb (ci_user_id ci =? user_id)) (cart_items t))
       (cart_items_seq t)).

(** DELETE FROM cart_items. *)
Definition delete_cart_items : cursor unit :=
  t <- read_tables ;;
  write_tables (mk_tables (coffees t) (coffees_seq t) [] (cart_items_seq t)).

(** One row of [cart_items ci JOIN coffees c ON ci.coffee_id = c.id], with
    the product as a float; [fetched] below gives the row as Python receives
    it, where a product that is not a number is NULL. *)
Definition join_row (with_user : bool) (ci : cart_row) (c : coffee_row) : cart_line :=
  mk_line (if with_user then Some (ci_user_id ci) else None)
          (c_id c) (c_name c) (c_description c) (c_picture_url c) (c_price c)
          (ci_count ci)
          (PrimFloat.mul (c_price c) (float_of_Z (ci_count ci))).

(** The inner join: each cart row is paired with the coffees it references. *)
Definition join_cart_coffees (with_user : bool) (cart : list cart_row)
    (cs : list coffee_row) : list cart_line :=
  flat_map (fun ci =>
              map (join_row with_user ci)
                  (filter (fun c => ci_coffee_id ci =? c_id c) cs))
           cart.

(** SELECT ... FROM cart_items ci JOIN coffees c ON ci.coffee_id = c.id
    [WHERE ci.user_id = ?]. *)
Definition select_cart_join (user_id : option Z) : cursor (list cart_line) :=
  t <- read_tables ;;
  ret (match user_id with
       | Some u =>
           join_cart_coffees false
             (filter (fun ci => ci_user_id ci =? u) (cart_items t)) (coffees t)
       | None => join_cart_coffees true (cart_items t) (coffees t)
       end).

(** ** The repository: class [CoffeeRepository]

    Each method maps the database file before the call to its return value
    and the file after the call.  Methods whose SQL uses CURRENT_TIMESTAMP
    take the engine's clock reading [now].  The arguments are values that
    SQLite holds as they are: integers of 64 bits, and prices that are
    numbers other than -0.0.  Module [Call] below gives the methods on every
    argument that Python can pass. *)
Module CoffeeRepository.

Definition initialize (f : database) : bool * database :=
  method (create_tables_if_not_exists ;;; commit ;;; ret true) false f.

Definition add_coffee (now : timestamp) (name : string)
    (description picture_url : option string) (price : float)
    (f : database) : Z * database :=
  method (lastrowid <- insert_coffee now name description picture_url price ;;
          commit ;;;
          ret lastrowid)
         (-1) f.

Definition update_coffee (now : timestamp) (id : Z) (name : string)
    (description picture_url : option string) (price : float)
    (f : database) : bool * database :=
  method (rowcount <- update_coffees now name description picture_url price id ;;
          commit ;;;
          ret (0 <? rowcount))
         false f.

Definition delete_coffee (id : Z) (f : database) : bool * database :=
  method (rowcount <- delete_coffees id ;;
          commit ;;;
          ret (0 <? rowcount))
         false f.

Definition list_coffee (coffee_id : option Z) (f : database)
    : list coffee_row * database :=
  method (match coffee_id with
          | Some id => select_coffees_by_id id
          | None => select_coffees_order_by_name
          end)
         [] f.

Definition add_to_cart (now : timestamp) (user_id coffee_id count : Z)
    (f : database) : bool * database :=
  method (found <- select_coffees_by_id coffee_id ;;
          match fetchone found with
          | None => ret false
          | Some _ =>
              existing <- select_cart_items user_id coffee_id ;;
              match fetchone existing with
              | Some existing_item =>
                  let new_count := ci_count existing_item + count in
                  update_cart_items new_count (ci_id existing_item)
              | None => insert_cart_item now user_id coffee_id count
              end ;;;
              commit ;;;
              ret true
          end)
         false f.

Definition clear_cart (user_id : option Z) (f : database) : bool * database :=
  method (match user_id with
          | Some u => delete_cart_items_of u
          | None => delete_cart_items
          end ;;;
          commit ;;;
          ret true)
         false f.

Definition get_cart_items (user_id : option Z) (f : database)
    : list cart_line * database :=
  method (select_cart_join user_id) [] f.

End CoffeeRepository.

(** ** The handlers of [main.py] that use the cart *)

(** What a handler reads from an incoming message or callback query. *)
Record Message := mk_message {
  message_chat_id : Z;
  message_message_id : Z;
  message_from_user_id : Z;
  message_text : string
}.

Record CallbackQuery := mk_call {
  call_from_user_id : Z;
  call_message : Message;
  call_data : string
}.

Record InlineKeyboardButton := mk_button {
  button_text : string;
  button_callback_data : string
}.

(** Rows of buttons. *)
Definition InlineKeyboardMarkup := list (list InlineKeyboardButton).

(** The requests a handler sends through [bot]. *)
Inductive bot_request :=
| send_message (chat_id : Z) (text : string)
    (reply_markup : option InlineKeyboardMarkup) (parse_mode : option string)
| edit_message_text (text : string) (chat_id message_id : Z).

Definition newline : string := String (ascii_of_nat 10) EmptyString.

(** [str(n)] for an integer. *)
Definition str (n : Z) : string := NilZero.string_of_int (Z.to_int n).

Module Main.

Definition callback_checkout (call : CallbackQuery) (f : database)
    : list bot_request * database :=
  let '(_, f') := CoffeeRepository.clear_cart None f in
  ([edit_message_text "Наш менеджер зв'яжеться з вами для оформлення замовлення"
      (message_chat_id (call_message call))
      (message_message_id (call_message call))], f').

End Main.

(** ** Histories of the store *)

(** The state-changing operations of the repository. *)
Inductive operation :=
| Initialize
| AddCoffee (now : timestamp) (name : string)
    (description picture_url : option string) (price : float)
| UpdateCoffee (now : timestamp) (id : Z) (name : string)
    (description picture_url : option string) (price : float)
| DeleteCoffee (id : Z)
| AddToCart (now : timestamp) (user_id coffee_id count : Z)
| ClearCart (user_id : option Z).

Definition run (op : operation) (f : database) : database :=
  match op with
  | Initialize => snd (CoffeeRepository.initialize f)
  | AddCoffee now name description picture_url price =>
      snd (CoffeeRepository.add_coffee now name description picture_url price f)
  | UpdateCoffee now id name description picture_url price =>
      snd (CoffeeRepository.update_coffee now id name description picture_url price f)
  | DeleteCoffee id => snd (CoffeeRepository.delete_coffee id f)
  | AddToCart now user_id coffee_id count =>
      snd (CoffeeRepository.add_to_cart now user_id coffee_id count f)
  | ClearCart user_id => snd (CoffeeRepository.clear_cart user_id f)
  end.

Definition run_all (ops : list operation) (f : database) : database :=
  fold_left (fun f op => run op f) ops f.

Definition reachable (f : database) : Prop :=
  exists ops, run_all ops empty_store = f.

(** ** Predicates on the store *)

(** Some coffee row has this id. *)
Definition coffee_exists (id : Z) (f : database) : bool :=
  existsb (fun c => c_id c =? id) (coffee_rows f).

(** The cart rows of one (user, coffee) pair. *)
Definition is_cart_row_of (user_id coffee_id : Z) (ci : cart_row) : bool :=
  (ci_user_id ci =? user_id) && (ci_coffee_id ci =? coffee_id).

Definition cart_key (ci : cart_row) : Z * Z := (ci_user_id ci, ci_coffee_id ci).

(** INTEGER PRIMARY KEY of both tables: no two rows of a table share an id. *)
Definition primary_keys (f : database) : Prop :=
  NoDup (map c_id (coffee_rows f)) /\ NoDup (map ci_id (cart_rows f)).

(** At most one cart row per (user, coffee) pair. *)
Definition one_row_per_pair (f : database) : Prop :=
  NoDup (map cart_key (cart_rows f)).


(** A cart row with another count. *)
Definition with_count (ci : cart_row) (count : Z) : cart_row :=
  mk_cart_item (ci_id ci) (ci_user_id ci) (ci_coffee_id ci) count (ci_created_at ci).

(** A small catalog and cart used in the examples: two coffees, and user 42
    holding two of coffee 1. *)
Definition sample_history : list operation :=
  [ Initialize;
    AddCoffee "2024-01-01 10:00:00" "Latte" (Some "Milk coffee"%string) None 3.5%float;
    AddCoffee "2024-01-01 10:00:01" "Espresso" None None 2%float;
    AddToCart "2024-01-01 10:05:00" 42 1 2;
    AddToCart "2024-01-01 10:06:00" 7 2 1 ].

Definition sample_store : database := Eval vm_compute in run_all sample_history empty_store.

(** ** Python text primitives used by the handlers

    Text is the UTF-8 encoding of a Python string.  [split], [strip] and
    [startswith] are the methods of [str]; [int] is given for ASCII text of
    fewer digits than the interpreter's limit on integer literals: digits and
    white space outside ASCII, which [int()] also accepts, are not
    modelled. *)
Module Python.

(** [s.startswith(prefix)]. *)
Definition startswith (s prefix : string) : bool := String.prefix prefix s.

(** [s.split(sep)] for a separator of one character. *)
Fixpoint split (sep : ascii) (s : string) : list string :=
  match s with
  | EmptyString => [EmptyString]
  | String a r =>
      if Ascii.eqb a sep then EmptyString :: split sep r
      else match split sep r with
           | part :: parts => String a part :: parts
           | [] => [String a EmptyString]
           end
  end.

(** The ASCII white space of [str.isspace]: TAB to CR, FS to US, the space. *)
Definition isspace (a : ascii) : bool :=
  let n := nat_of_ascii a in
  ((9 <=? n)%nat && (n <=? 13)%nat) || ((28 <=? n)%nat && (n <=? 32)%nat).

(** The white space of [str.isspace] outside ASCII, as encoded: U+0085 and
    U+00A0 in two bytes; U+1680, U+2000 to U+200A, U+2028, U+2029, U+202F,
    U+205F and U+3000 in three. *)
Definition isspace2 (a b : ascii) : bool :=
  (nat_of_ascii a =? 194)%nat &&
  ((nat_of_ascii b =? 133)%nat || (nat_of_ascii b =? 160)%nat).

Definition isspace3 (a b c : ascii) : bool :=
  let x := nat_of_ascii a in
  let y := nat_of_ascii b in
  let z := nat_of_ascii c in
  ((x =? 225)%nat && (y =? 154)%nat && (z =? 128)%nat) ||
  ((x =? 226)%nat && (y =? 128)%nat &&
   (((128 <=? z)%nat && (z <=? 138)%nat) ||
    (z =? 168)%nat || (z =? 169)%nat || (z =? 175)%nat)) ||
  ((x =? 226)%nat && (y =? 129)%nat && (z =? 159)%nat) ||
  ((x =? 227)%nat && (y =? 128)%nat && (z =? 128)%nat).

(** Dropping the white space at the head of a byte list; [sp2] and [sp3]
    recognise the encodings of two and three bytes. *)
Fixpoint drop_spaces (sp2 : ascii -> ascii -> bool)
    (sp3 : ascii -> ascii -> ascii -> bool) (l : list ascii) : list ascii :=
  match l with
  | [] => []
  | a :: r =>
      if isspace a then drop_spaces sp2 sp3 r
      else match r with
           | [] => l
           | b :: r1 =>
               if sp2 a b then drop_spaces sp2 sp3 r1
               else match r1 with
                    | [] => l
                    | c :: r2 => if sp3 a b c then drop_spaces sp2 sp3 r2 else l
                    end
           end
  end.

(** [s.strip()]: white space is dropped at the head, then at the tail (from
    the reversed text, where the encodings read backwards). *)
Definition strip (s : string) : string :=
  let head_dropped := drop_spaces isspace2 isspace3 (list_ascii_of_string s) in
  let tail_dropped :=
    drop_spaces (fun a b => isspace2 b a) (fun a b c => isspace3 c b a)
                (rev head_dropped) in
  string_of_list_ascii (rev tail_dropped).

(** The white space that [int()] skips in ASCII text: TAB to CR and the
    space. *)
Definition int_space (a : ascii) : bool :=
  let n := nat_of_ascii a in
  ((9 <=? n)%nat && (n <=? 13)%nat) || (n =? 32)%nat.

Definition isdigit (a : ascii) : bool :=
  let n := nat_of_ascii a in
  (48 <=? n)%nat && (n <=? 57)%nat.

Fixpoint skip_head (s : string) : string :=
  match s with
  | EmptyString => EmptyString
  | String a r => if int_space a then skip_head r else s
  end.

Fixpoint skip_tail (s : string) : string :=
  match s with
  | EmptyString => EmptyString
  | String a r =>
      match skip_tail r with
      | EmptyString => if int_space a then EmptyString else String a EmptyString
      | r' => String a r'
      end
  end.

(** The digits of an integer literal without its underscores: an underscore
    is accepted only between two digits, and the literal ends in a digit. *)
Fixpoint drop_underscores (after_digit : bool) (s : string) : option string :=
  match s with
  | EmptyString => if after_digit then Some EmptyString else None
  | String a r =>
      if Ascii.eqb a "_"
      then if after_digit then drop_underscores false r else None
      else option_map (String a) (drop_underscores (isdigit a) r)
  end.

(** [int(s)] for a string: white space around, an optional sign, decimal
    digits.  [None] is [ValueError]. *)
Definition int (s : string) : option Z :=
  let s := skip_tail (skip_head s) in
  let '(negative, body) :=
    match s with
    | String a r =>
        if Ascii.eqb a "-" then (true, r)
        else if Ascii.eqb a "+" then (false, r)
        else (false, s)
    | EmptyString => (false, s)
    end in
  match drop_underscores false body with
  | Some digits =>
      match NilZero.uint_of_string digits with
      | Some d => Some (if negative then - Z.of_uint d else Z.of_uint d)
      | None => None
      end
  | None => None
  end.

(** [random.choice(seq)] on a non-empty sequence [first :: rest]; [draw] is
    the number drawn by the generator. *)
Definition choice {A} (draw : nat) (first : A) (rest : list A) : A :=
  nth (draw mod List.length (first :: rest)) (first :: rest) first.

End Python.

(** ** The other handlers of [main.py] *)

(** Requests beyond [send_message] and [edit_message_text]; a callback query
    is answered by naming the query ([call.id] in the source). *)
Inductive bot_call :=
| request (r : bot_request)
| send_photo (chat_id : Z) (photo caption : string)
    (reply_markup : InlineKeyboardMarkup) (parse_mode : string)
| answer_callback_query (call : CallbackQuery) (text : string).

(** Exceptions that neither a method nor a handler catches. *)
Inductive exception := ValueError | IndexError | OverflowError | TypeError.

Inductive handled :=
| Done (calls : list bot_call)
| Failed (e : exception).


Module Bot.

(** The filters of the four callback handlers. *)
Definition is_list_coffee (data : string) : bool := String.eqb data "list_coffee".
Definition is_coffee_details (data : string) : bool := Python.startswith data "coffee_".
Definition is_add_to_cart (data : string) : bool := Python.startswith data "add_".
Definition is_checkout (data : string) : bool := String.eqb data "checkout".

Definition create_coffee_detail_markup (coffee_id : Z) : InlineKeyboardMarkup :=
  let btn1 := mk_button "Додати в кошик" ("add_" ++ str coffee_id ++ "_1") in
  let btn3 := mk_button "Додати 3 в кошик" ("add_" ++ str coffee_id ++ "_3") in
  [[btn1; btn3]].

(** [clear_cart(message)], the handler of the menu entry. *)
Definition clear_cart (message : Message) (f : database)
    : list bot_request * database :=
  let user_id := message_from_user_id message in
  let '(_, f') := CoffeeRepository.clear_cart (Some user_id) f in
  ([send_message (message_chat_id message) "Кошик очищено" None None], f').

Section Handlers.

(** Python's [format(x, ".2f")] for a float. *)
Variable format_2f : float -> string.

Definition create_coffee_list_markup (coffees : list coffee_row)
    : InlineKeyboardMarkup :=
  map (fun coffee =>
         [mk_button (c_name coffee ++ " - $" ++ format_2f (c_price coffee))
                    ("coffee_" ++ str (c_id coffee))])
      coffees.

(** An absent description is rendered as the text [None]. *)
Definition format_coffee_details (coffee : coffee_row) : string :=
  ("*" ++ c_name coffee ++ "*" ++ newline ++ newline
   ++ match c_description coffee with Some d => d | None => "None" end
   ++ newline ++ newline ++ "*Ціна:* $" ++ format_2f (c_price coffee))%string.

Definition list_coffees (message : Message) (f : database)
    : list bot_request * database :=
  let '(coffees, f') := CoffeeRepository.list_coffee None f in
  match coffees with
  | [] =>
      ([send_message (message_chat_id message)
          "На жаль у нас зараз немає жодної кави" None None], f')
  | _ :: _ =>
      ([send_message (message_chat_id message)
          "Наше меню кави (настиність, щоб отримати більше інформації):"
          (Some (create_coffee_list_markup coffees)) None], f')
  end.

Definition show_coffee_details (chat_id coffee_id : Z) (f : database)
    : list bot_call * database :=
  let '(coffees, f') := CoffeeRepository.list_coffee (Some coffee_id) f in
  match coffees with
  | [] => ([request (send_message chat_id "Кава не знайдена!" None None)], f')
  | coffee :: _ =>
      let text := format_coffee_details coffee in
      let markup := create_coffee_detail_markup coffee_id in
      let with_photo :=
        match c_picture_url coffee with
        | Some url =>
            match Python.strip url with
            | EmptyString => None
            | String _ _ => Some url
            end
        | None => None
        end in
      match with_photo with
      | Some url => ([send_photo chat_id url text markup "Markdown"], f')
      | None =>
          ([request (send_message chat_id text (Some markup) (Some "Markdown"%string))], f')
      end
  end.

Definition recommend_coffee (draw : nat) (message : Message) (f : database)
    : list bot_call * database :=
  let '(coffees, f') := CoffeeRepository.list_coffee None f in
  match coffees with
  | [] =>
      ([request (send_message (message_chat_id message)
                   "На жаль, у нас зараз немає жодної кави" None None)], f')
  | first :: rest =>
      let coffee := Python.choice draw first rest in
      show_coffee_details (message_chat_id message) (c_id coffee) f'
  end.

End Handlers.

End Bot.

(** ** Further predicates on the store *)

(** The tables exist. *)
Definition initialized (f : database) : Prop := f <> None.

(** Every id in use was issued by the AUTOINCREMENT counter of [coffees]. *)
Definition coffee_ids_issued (f : database) : Prop :=
  match f with
  | None => True
  | Some t =>
      (forall c, In c (coffees t) -> c_id c <= coffees_seq t) /\
      (forall ci, In ci (cart_items t) -> ci_coffee_id ci <= coffees_seq t)
  end.

(** A line of the query over all users without its user. *)
Definition without_user (l : cart_line) : cart_line :=
  mk_line None (l_coffee_id l) (l_name l) (l_description l) (l_picture_url l)
          (l_price l) (l_count l) (l_total_price l).

(** Every character of a text satisfies a test. *)
Fixpoint all_chars (p : ascii -> bool) (s : string) : bool :=
  match s with
  | EmptyString => true
  | String a r => p a && all_chars p r
  end.

(** The texts on which [Python.int] is [int()]: ASCII text within the
    interpreter's limit of 4300 digits. *)
Definition plain_text (s : string) : bool :=
  all_chars (fun a => (nat_of_ascii a <? 128)%nat) s &&
  (String.length s <=? 4300)%nat.

(** ** Calls from Python

    The methods of [CoffeeRepository] above take arguments that SQLite holds
    as they are: integers of 64 bits and prices that are numbers.  A call
    from Python binds its arguments first, and the binding and the column
    types add four effects:
    - an [int] outside 64 bits raises [OverflowError] when the statement is
      executed; it is not an [sqlite3.Error], so the method does not catch it;
    - a NaN is bound as NULL, which the NOT NULL column [price] rejects;
    - a REAL column gives the value -0.0 back as 0.0, and a product that is
      not a number is NULL;
    - AUTOINCREMENT refuses a new row once the largest rowid was issued.
    Module [Call] gives the methods with these effects, module [Event] the
    handlers that call them. *)

Definition max_int64 : Z := 2 ^ 63 - 1.
Definition min_int64 : Z := - 2 ^ 63.

(** The integers that SQLite stores. *)
Definition int64 (z : Z) : bool := (min_int64 <=? z) && (z <=? max_int64).

(** A REAL parameter or result: NULL when it is not a number. *)
Definition real_or_null (x : float) : option float :=
  if PrimFloat.is_nan x then None else Some x.

(** The value read back from a REAL column: -0.0 becomes 0.0. *)
Definition real_column (x : float) : float :=
  if PrimFloat.eqb x 0 then 0%float else x.

(** A row of [get_cart_items] as Python receives it: [total_price] is [None]
    when the product is NULL. *)
Record item := mk_item {
  item_user_id : option Z;
  item_coffee_id : Z;
  item_name : string;
  item_description : option string;
  item_picture_url : option string;
  item_price : float;
  item_count : Z;
  item_total_price : option float
}.

Definition fetched (l : cart_line) : item :=
  mk_item (l_user_id l) (l_coffee_id l) (l_name l) (l_description l)
          (l_picture_url l) (l_price l) (l_count l)
          (real_or_null (l_total_price l)).

(** INSERT INTO coffees with the price as Python passes it. *)
Definition insert_into_coffees (now : timestamp) (name : string)
    (description picture_url : option string) (price : float) : cursor Z :=
  t <- read_tables ;;
  match real_or_null price with
  | None => raise (IntegrityError "NOT NULL constraint failed: coffees.price")
  | Some x =>
      if max_int64 <? next_rowid (coffees_seq t) (map c_id (coffees t))
      then raise (OperationalError "database or disk is full")
      else insert_coffee now name description picture_url (real_column x)
  end.

(** UPDATE coffees with the price as Python passes it: the NOT NULL
    constraint is checked on the rows that the statement changes. *)
Definition update_coffees_set (now : timestamp) (name : string)
    (description picture_url : option string) (price : float) (id : Z) : cursor Z :=
  t <- read_tables ;;
  match real_or_null price with
  | None =>
      if existsb (fun c => c_id c =? id) (coffees t)
      then raise (IntegrityError "NOT NULL constraint failed: coffees.price")
      else ret 0
  | Some x => update_coffees now name description picture_url (real_column x) id
  end.

(** INSERT INTO cart_items, with the limit of AUTOINCREMENT. *)
Definition insert_into_cart_items (now : timestamp) (user_id coffee_id count : Z)
    : cursor unit :=
  t <- read_tables ;;
  if max_int64 <? next_rowid (cart_items_seq t) (map ci_id (cart_items t))
  then raise (OperationalError "database or disk is full")
  else insert_cart_item now user_id coffee_id count.

(** The join of [get_cart_items] with its rows as Python receives them. *)
Definition select_items (user_id : option Z) : cursor (list item) :=
  lines <- select_cart_join user_id ;;
  ret (map fetched lines).

(** A statement executed from Python ends in a value, in an error of
    [sqlite3] or in another exception. *)
Inductive raised (A : Type) :=
| Value (a : A)
| Sqlite3Error (e : sqlite3_Error)
| PythonError (e : exception).
Arguments Value {A} a.
Arguments Sqlite3Error {A} e.
Arguments PythonError {A} e.

Definition call (A : Type) := connection -> raised A * connection.

Definition value {A} (a : A) : call A := fun conn => (Value a, conn).

Definition and_then {A B} (m : call A) (k : A -> call B) : call B :=
  fun conn =>
    match m conn with
    | (Value a, conn') => k a conn'
    | (Sqlite3Error e, conn') => (Sqlite3Error e, conn')
    | (PythonError e, conn') => (PythonError e, conn')
    end.

Notation "x <~ m ;; k" := (and_then m (fun x => k))
  (at level 61, m at next level, right associativity).
Notation "m ;;~ k" := (and_then m (fun _ => k))
  (at level 61, right associativity).

(** A statement without parameters that names no table yet, and [commit]. *)
Definition perform {A} (statement : cursor A) : call A :=
  fun conn =>
    match statement conn with
    | (Return a, conn') => (Value a, conn')
    | (Raise e, conn') => (Sqlite3Error e, conn')
    end.

(** [cursor.execute(sql, parameters)]: the statement is prepared (its tables
    must exist), then the parameters are bound ([parameters] lists the
    integers among them), then it runs. *)
Definition execute {A} (parameters : list Z) (statement : cursor A) : call A :=
  fun conn =>
    match working conn with
    | None => (Sqlite3Error (OperationalError "no such table"), conn)
    | Some _ =>
        if forallb int64 parameters then perform statement conn
        else (PythonError OverflowError, conn)
    end.

(** How a method ends for its caller. *)
Inductive completion (A : Type) :=
| Returns (a : A)
| Raises (e : exception).
Arguments Returns {A} a.
Arguments Raises {A} e.

(** [try: _connect(); body  except sqlite3.Error: return failure
    finally: _disconnect()], other exceptions passing through. *)
Definition call_method {A} (body : call A) (failure : A) (f : database)
    : completion A * database :=
  let '(r, conn) := body (_connect f) in
  (match r with
   | Value a => Returns a
   | Sqlite3Error _ => Returns failure
   | PythonError e => Raises e
   end, _disconnect conn).

Module Call.

Definition initialize (f : database) : completion bool * database :=
  call_method (perform create_tables_if_not_exists ;;~ perform commit ;;~ value true) false f.

Definition add_coffee (now : timestamp) (name : string)
    (description picture_url : option string) (price : float)
    (f : database) : completion Z * database :=
  call_method
    (lastrowid <~ execute [] (insert_into_coffees now name description picture_url price) ;;
     perform commit ;;~
     value lastrowid)
    (-1) f.

Definition update_coffee (now : timestamp) (id : Z) (name : string)
    (description picture_url : option string) (price : float)
    (f : database) : completion bool * database :=
  call_method
    (rowcount <~ execute [id]
                   (update_coffees_set now name description picture_url price id) ;;
     perform commit ;;~
     value (0 <? rowcount))
    false f.

Definition delete_coffee (id : Z) (f : database) : completion bool * database :=
  call_method
    (rowcount <~ execute [id] (delete_coffees id) ;;
     perform commit ;;~
     value (0 <? rowcount))
    false f.

Definition list_coffee (coffee_id : option Z) (f : database)
    : completion (list coffee_row) * database :=
  call_method
    (match coffee_id with
     | Some id => execute [id] (select_coffees_by_id id)
     | None => execute [] select_coffees_order_by_name
     end)
    [] f.

Definition add_to_cart (now : timestamp) (user_id coffee_id count : Z)
    (f : database) : completion bool * database :=
  call_method
    (found <~ execute [coffee_id] (select_coffees_by_id coffee_id) ;;
     match fetchone found with
     | None => value false
     | Some _ =>
         existing <~ execute [user_id; coffee_id]
                       (select_cart_items user_id coffee_id) ;;
         match fetchone existing with
         | Some existing_item =>
             let new_count := ci_count existing_item + count in
             execute [new_count; ci_id existing_item]
                     (update_cart_items new_count (ci_id existing_item))
         | None =>
             execute [user_id; coffee_id; count]
                     (insert_into_cart_items now user_id coffee_id count)
         end ;;~
         perform commit ;;~
         value true
     end)
    false f.

Definition clear_cart (user_id : option Z) (f : database)
    : completion bool * database :=
  call_method
    (match user_id with
     | Some u => execute [u] (delete_cart_items_of u)
     | None => execute [] delete_cart_items
     end ;;~
     perform commit ;;~
     value true)
    false f.

Definition get_cart_items (user_id : option Z) (f : database)
    : completion (list item) * database :=
  call_method
    (execute (match user_id with Some u => [u] | None => [] end)
             (select_items user_id))
    [] f.

End Call.

(** The handlers on these calls; an exception of a call ends the handler. *)
Module Event.

Definition callback_add_to_cart (now : timestamp) (call : CallbackQuery)
    (f : database) : handled * database :=
  let parts := Python.split "_" (call_data call) in
  match nth_error parts 1 with
  | None => (Failed IndexError, f)
  | Some part1 =>
  match Python.int part1 with
  | None => (Failed ValueError, f)
  | Some coffee_id =>
  match nth_error parts 2 with
  | None => (Failed IndexError, f)
  | Some part2 =>
  match Python.int part2 with
  | None => (Failed ValueError, f)
  | Some count =>
      let user_id := call_from_user_id call in
      match Call.add_to_cart now user_id coffee_id count f with
      | (Raises e, f1) => (Failed e, f1)
      | (Returns success, f1) =>
          if success then
            match Call.list_coffee (Some coffee_id) f1 with
            | (Raises e, f2) => (Failed e, f2)
            | (Returns [], f2) => (Failed IndexError, f2)
            | (Returns (coffee :: _), f2) =>
                (Done [answer_callback_query call
                         ("Додано " ++ str count ++ " " ++ c_name coffee
                          ++ " до кошика!")], f2)
            end
          else
            (Done [answer_callback_query call
                     "Виникла помилка, спробуйте будь-ласка пізніше"], f1)
      end
  end end end end.




Section Handlers.

(** Python's [format(x, ".2f")] for a float; [None] cannot be formatted. *)
Variable format_2f : float -> string.

(** [format_cart_item(item)]; [None] is the [TypeError] of formatting a
    [total_price] that is [None]. *)
Definition format_cart_item (it : item) : option string :=
  match item_total_price it with
  | None => None
  | Some total_price =>
      Some ("• " ++ item_name it ++ " - " ++ str (item_count it) ++ " x $"
            ++ format_2f (item_price it) ++ " = $" ++ format_2f total_price)%string
  end.

(** The loop of [view_cart]; [None] when an item raised [TypeError]. *)
Definition view_cart_loop (cart_items : list item) : option (string * float) :=
  fold_left
    (fun state it =>
       match state with
       | None => None
       | Some (cart_text, total_price) =>
           match format_cart_item it, item_total_price it with
           | Some line, Some item_total =>
               Some ((cart_text ++ line ++ newline)%string,
                     PrimFloat.add total_price item_total)
           | _, _ => None
           end
       end)
    cart_items
    (Some (("🛒 *Ваш кошик*" ++ newline ++ newline)%string, 0%float)).

Definition view_cart (message : Message) (f : database) : handled * database :=
  let user_id := message_from_user_id message in
  match Call.get_cart_items (Some user_id) f with
  | (Raises e, f') => (Failed e, f')
  | (Returns [], f') =>
      (Done [request (send_message (message_chat_id message)
                        "Ваш кошик порожній" None None)], f')
  | (Returns cart_items, f') =>
      match view_cart_loop cart_items with
      | None => (Failed TypeError, f')
      | Some (cart_text, total_price) =>
          let cart_text :=
            (cart_text ++ newline ++ "*Усього: $" ++ format_2f total_price ++ "*")%string in
          let checkout_btn := mk_button "Оформити замовлення" "checkout" in
          (Done [request (send_message (message_chat_id message) cart_text
                            (Some [[checkout_btn]]) (Some "Markdown"%string))], f')
      end
  end.

Definition show_coffee_details (chat_id coffee_id : Z) (f : database)
    : handled * database :=
  match Call.list_coffee (Some coffee_id) f with
  | (Raises e, f') => (Failed e, f')
  | (Returns [], f') =>
      (Done [request (send_message chat_id "Кава не знайдена!" None None)], f')
  | (Returns (coffee :: _), f') =>
      let text := Bot.format_coffee_details format_2f coffee in
      let markup := Bot.create_coffee_detail_markup coffee_id in
      let with_photo :=
        match c_picture_url coffee with
        | Some url =>
            match Python.strip url with
            | EmptyString => None
            | String _ _ => Some url
            end
        | None => None
        end in
      match with_photo with
      | Some url => (Done [send_photo chat_id url text markup "Markdown"], f')
      | None =>
          (Done [request (send_message chat_id text (Some markup)
                            (Some "Markdown"%string))], f')
      end
  end.

Definition callback_coffee_details (call : CallbackQuery) (f : database)
    : handled * database :=
  match nth_error (Python.split "_" (call_data call)) 1 with
  | None => (Failed IndexError, f)
  | Some part =>
      match Python.int part with
      | None => (Failed ValueError, f)
      | Some coffee_id =>
          show_coffee_details (message_chat_id (call_message call)) coffee_id f
      end
  end.

End Handlers.

End Event.

(** ** Histories of calls *)

(** The operations of a history, as calls from Python. *)
Definition call_step (op : operation) (f : database) : database :=
  match op with
  | Initialize => snd (Call.initialize f)
  | AddCoffee now name description picture_url price =>
      snd (Call.add_coffee now name description picture_url price f)
  | UpdateCoffee now id name description picture_url price =>
      snd (Call.update_coffee now id name description picture_url price f)
  | DeleteCoffee id => snd (Call.delete_coffee id f)
  | AddToCart now user_id coffee_id count =>
      snd (Call.add_to_cart now user_id coffee_id count f)
  | ClearCart user_id => snd (Call.clear_cart user_id f)
  end.

Definition call_all (ops : list operation) (f : database) : database :=
  fold_left (fun f op => call_step op f) ops f.

(** ** Predicates on stores and arguments of calls *)

(** The integers of a cart row are integers of 64 bits. *)
Definition int64_cart_row (ci : cart_row) : bool :=
  int64 (ci_id ci) && int64 (ci_user_id ci) &&
  int64 (ci_coffee_id ci) && int64 (ci_count ci).

(** The store holds integers of 64 bits, as every SQLite file does. *)
Definition int64_store (f : database) : bool :=
  forallb (fun c => int64 (c_id c)) (coffee_rows f) &&
  forallb int64_cart_row (cart_rows f).


Definition cart_items_room (f : database) : bool :=
  match f with
  | Some t => next_rowid (cart_items_seq t) (map ci_id (cart_items t)) <=? max_int64
  | None => false
  end.



(** A row of the query over all users without its user. *)
Definition item_without_user (it : item) : item :=
  mk_item None (item_coffee_id it) (item_name it) (item_description it)
          (item_picture_url it) (item_price it) (item_count it)
          (item_total_price it).

(** A store used in the examples of the calls: the sample store with a
    coffee of infinite price, of which user 42 holds none. *)
Definition unpriced_history : list operation :=
  sample_history ++
  [ AddCoffee "2024-01-01 10:07:00" "Kopi" None None infinity;
    AddToCart "2024-01-01 10:08:00" 42 3 0 ].

Definition unpriced_store : database :=
  Eval vm_compute in run_all unpriced_history empty_store.

(** The sample store after user 42 took the largest count of coffee 2. *)
Definition full_count_store : database :=
  Eval vm_compute in
    run_all (sample_history ++ [AddToCart "2024-01-01 10:07:00" 42 2 max_int64])
            empty_store.

(** * Properties *)

Import CoffeeRepository.

(** ** Lists *)

Lemma existsb_false_filter {A} (p : A -> bool) (l : list A) :
  existsb p l = false -> filter p l = [].
Proof.
  induction l as [|a l IH]; simpl; intros H; [reflexivity|].
  apply orb_false_iff in H as [Ha Hl]. rewrite Ha. auto.
Qed.

Lemma filter_nil_existsb {A} (p : A -> bool) (l : list A) :
  filter p l = [] -> existsb p l = false.
Proof.
  induction l as [|a l IH]; simpl; intros H; [reflexivity|].
  destruct (p a); [discriminate|]. simpl. auto.
Qed.

Lemma filter_nil_forall {A} (p : A -> bool) (l : list A) :
  filter p l = [] -> forall a, In a l -> p a = false.
Proof.
  intros H a Ha. destruct (p a) eqn:E; [|reflexivity].
  assert (In a (filter p l)) as Hin by (apply filter_In; auto).
  rewrite H in Hin. destruct Hin.
Qed.

Lemma map_unchanged {A} (p : A -> bool) (g : A -> A) (l : list A) :
  (forall a, In a l -> p a = false) ->
  map (fun a => if p a then g a else a) l = l.
Proof.
  induction l as [|a l IH]; simpl; intros H; [reflexivity|].
  rewrite (H a) by auto. f_equal. apply IH. intros; apply H; auto.
Qed.

Lemma NoDup_map_filter {A B} (g : A -> B) (p : A -> bool) (l : list A) :
  NoDup (map g l) -> NoDup (map g (filter p l)).
Proof.
  induction l as [|a l IH]; simpl; intros H; [constructor|].
  inversion H as [|? ? Hnotin Hnd]; subst.
  destruct (p a); simpl; auto.
  constructor; auto.
  intros Hin. apply Hnotin.
  apply in_map_iff in Hin as [b [Hb Hin]].
  apply filter_In in Hin as [Hin _].
  apply in_map_iff. exists b; auto.
Qed.


(** ** What each method does to an initialised and to an empty file *)

Lemma initialize_eq (f : database) :
  initialize f = (true, Some (match f with Some t => t | None => empty_tables end)).
Proof. destruct f; reflexivity. Qed.

Lemma add_coffee_None now name d p price :
  add_coffee now name d p price None = (-1, None).
Proof. reflexivity. Qed.

Lemma add_coffee_Some now name d p price (t : tables) :
  add_coffee now name d p price (Some t) =
  let id := next_rowid (coffees_seq t) (map c_id (coffees t)) in
  (id, Some (mk_tables (coffees t ++ [mk_coffee id name d p price now now])
                       id (cart_items t) (cart_items_seq t))).
Proof. reflexivity. Qed.

Lemma update_coffee_None now id name d p price :
  update_coffee now id name d p price None = (false, None).
Proof. reflexivity. Qed.

Lemma update_coffee_Some now id name d p price (t : tables) :
  update_coffee now id name d p price (Some t) =
  (0 <? Z.of_nat (List.length (filter (fun c => c_id c =? id) (coffees t))),
   Some (mk_tables
           (map (fun c => if c_id c =? id
                          then mk_coffee (c_id c) name d p price (c_created_at c) now
                          else c) (coffees t))
           (coffees_seq t) (cart_items t) (cart_items_seq t))).
Proof. reflexivity. Qed.

Lemma delete_coffee_None id : delete_coffee id None = (false, None).
Proof. reflexivity. Qed.

Lemma delete_coffee_Some id (t : tables) :
  delete_coffee id (Some t) =
  (0 <? Z.of_nat (List.length (filter (fun c => c_id c =? id) (coffees t))),
   Some (mk_tables (filter (fun c => negb (c_id c =? id)) (coffees t))
                   (coffees_seq t) (cart_items t) (cart_items_seq t))).
Proof. reflexivity. Qed.

Lemma list_coffee_unchanged coffee_id (f : database) :
  snd (list_coffee coffee_id f) = f.
Proof. destruct f, coffee_id; reflexivity. Qed.

Lemma list_coffee_by_id id (f : database) :
  fst (list_coffee (Some id) f) = filter (fun c => c_id c =? id) (coffee_rows f).
Proof. destruct f; reflexivity. Qed.


Lemma add_to_cart_None now u c n : add_to_cart now u c n None = (false, None).
Proof. reflexivity. Qed.

Lemma add_to_cart_Some now u c n (t : tables) :
  add_to_cart now u c n (Some t) =
  match filter (fun x => c_id x =? c) (coffees t) with
  | [] => (false, Some t)
  | _ :: _ =>
      match filter (is_cart_row_of u c) (cart_items t) with
      | existing_item :: _ =>
          (true,
           Some (mk_tables (coffees t) (coffees_seq t)
                   (map (fun ci => if ci_id ci =? ci_id existing_item
                                   then with_count ci (ci_count existing_item + n)
                                   else ci) (cart_items t))
                   (cart_items_seq t)))
      | [] =>
          let id := next_rowid (cart_items_seq t) (map ci_id (cart_items t)) in
          (true,
           Some (mk_tables (coffees t) (coffees_seq t)
                   (cart_items t ++ [mk_cart_item id u c n now]) id))
      end
  end.
Proof.
  unfold add_to_cart, method, bind, select_coffees_by_id, select_cart_items,
    read_tables, ret, _connect, is_cart_row_of; cbn.
  destruct (filter _ (coffees t)); [reflexivity|]; cbn.
  destruct (filter _ (cart_items t)); reflexivity.
Qed.

Lemma clear_cart_None user_id : clear_cart user_id None = (false, None).
Proof. destruct user_id; reflexivity. Qed.

Lemma clear_cart_Some user_id (t : tables) :
  clear_cart user_id (Some t) =
  (true,
   Some (mk_tables (coffees t) (coffees_seq t)
           (match user_id with
            | Some u => filter (fun ci => negb (ci_user_id ci =? u)) (cart_items t)
            | None => []
            end)
           (cart_items_seq t))).
Proof. destruct user_id; reflexivity. Qed.

Lemma get_cart_items_eq user_id (f : database) :
  get_cart_items user_id f =
  (match user_id with
   | Some u =>
       join_cart_coffees false
         (filter (fun ci => ci_user_id ci =? u) (cart_rows f)) (coffee_rows f)
   | None => join_cart_coffees true (cart_rows f) (coffee_rows f)
   end, f).
Proof. destruct f, user_id; reflexivity. Qed.

(** ** Deleting a coffee *)

Lemma delete_coffee_cart_rows id (f : database) :
  cart_rows (snd (delete_coffee id f)) = cart_rows f.
Proof. destruct f; reflexivity. Qed.

Lemma delete_coffee_then_list id (f : database) :
  fst (list_coffee (Some id) (snd (delete_coffee id f))) = [].
Proof.
  rewrite list_coffee_by_id. destruct f as [t|]; [|reflexivity].
  rewrite delete_coffee_Some; cbn.
  induction (coffees t) as [|c l IH]; simpl; [reflexivity|].
  destruct (c_id c =? id) eqn:E; simpl; [assumption|].
  rewrite E. assumption.
Qed.

(** The statement itself cascades on a connection that enforces foreign
    keys; [_connect] never yields such a connection. *)
Lemma delete_coffees_cascades_when_enforced id (t : tables) (ci : cart_row) :
  coffee_exists id (Some t) = true ->
  In ci (cart_rows (working (snd (delete_coffees id (mk_conn true (Some t) (Some t)))))) ->
  ci_coffee_id ci <> id.
Proof.
  unfold coffee_exists; cbn. intros Hex Hin.
  apply filter_In in Hin as [_ Hno].
  apply negb_true_iff in Hno.
  intros Heq. rewrite Heq in Hno.
  apply existsb_exists in Hex as [c [Hc Hid]].
  assert (In c (filter (fun c0 => c_id c0 =? id) (coffees t))) as Hdel
    by (apply filter_In; auto).
  assert (existsb (fun c0 => c_id c0 =? id)
            (filter (fun c0 => c_id c0 =? id) (coffees t)) = true) as Hc'
    by (apply existsb_exists; exists c; auto).
  congruence.
Qed.

(** C1, on the code: [delete_coffee] does not cascade.  In the sample store
    coffee 1 exists and user 42 holds a cart row for it; after
    [delete_coffee 1] the call has returned [True] and [list_coffee 1] is
    empty, but the cart row that references coffee 1 is still stored. *)
Theorem delete_coffee_keeps_referencing_cart_rows :
  coffee_exists 1 sample_store = true /\
  fst (delete_coffee 1 sample_store) = true /\
  fst (list_coffee (Some 1) (snd (delete_coffee 1 sample_store))) = [] /\
  In (mk_cart_item 1 42 1 2 "2024-01-01 10:05:00")
     (cart_rows (snd (delete_coffee 1 sample_store))).
Proof.
  repeat split; try reflexivity.
  vm_compute. left. reflexivity.
Qed.

(** ** Checkout *)

(** C3: [callback_checkout] calls [clear_cart()] without a user: afterwards
    the cart table holds no row of any user, the catalog is as before, and
    the only request sent replaces the text of the cart message by the
    confirmation. *)
Theorem callback_checkout_clears_all_carts (call : CallbackQuery) (f : database) :
  Main.callback_checkout call f =
    ([edit_message_text "Наш менеджер зв'яжеться з вами для оформлення замовлення"
        (message_chat_id (call_message call))
        (message_message_id (call_message call))],
     snd (clear_cart None f)) /\
  cart_rows (snd (Main.callback_checkout call f)) = [] /\
  (forall u, filter (fun ci => ci_user_id ci =? u)
               (cart_rows (snd (Main.callback_checkout call f))) = []) /\
  coffee_rows (snd (Main.callback_checkout call f)) = coffee_rows f.
Proof.
  destruct f as [t|]; repeat split; reflexivity.
Qed.

(** ** Adding to the cart: unknown coffee *)

(** When no coffee row has id [c], [add_to_cart] returns [False] and the
    whole database, the cart table included, is what it was. *)
Lemma add_to_cart_unknown_coffee now (u c n : Z) (f : database) :
  coffee_exists c f = false ->
  add_to_cart now u c n f = (false, f).
Proof.
  intros H. destruct f as [t|]; [|reflexivity].
  rewrite add_to_cart_Some.
  unfold coffee_exists in H; cbn in H.
  rewrite (existsb_false_filter _ _ H). reflexivity.
Qed.

(** ** Clearing the cart *)

(** C6: [clear_cart(u)] keeps, in their order, exactly the cart rows whose
    user is not [u]; [clear_cart()] leaves no cart row.  Neither touches the
    catalog. *)
Theorem clear_cart_scope (f : database) :
  (forall u,
     cart_rows (snd (clear_cart (Some u) f)) =
       filter (fun ci => negb (ci_user_id ci =? u)) (cart_rows f) /\
     (forall ci, In ci (cart_rows (snd (clear_cart (Some u) f))) <->
                 In ci (cart_rows f) /\ ci_user_id ci <> u) /\
     coffee_rows (snd (clear_cart (Some u) f)) = coffee_rows f) /\
  cart_rows (snd (clear_cart None f)) = [] /\
  coffee_rows (snd (clear_cart None f)) = coffee_rows f.
Proof.
  split; [intros u|].
  - assert (cart_rows (snd (clear_cart (Some u) f)) =
            filter (fun ci => negb (ci_user_id ci =? u)) (cart_rows f)) as E
      by (destruct f; reflexivity).
    split; [exact E|]. split.
    + intros ci. rewrite E, filter_In, negb_true_iff, Z.eqb_neq. reflexivity.
    + destruct f; reflexivity.
  - destruct f; split; reflexivity.
Qed.

(** ** Updating an unknown coffee *)


(** ** Listing the catalog *)




Lemma insert_by_name_perm (c : coffee_row) (l : list coffee_row) :
  Permutation (c :: l) (insert_by_name c l).
Proof.
  induction l as [|d l IH]; simpl; [reflexivity|].
  destruct (String.leb (c_name c) (c_name d)); [reflexivity|].
  rewrite perm_swap. constructor. exact IH.
Qed.



Lemma order_by_name_perm (l : list coffee_row) :
  Permutation l (order_by_name l).
Proof.
  induction l as [|c l IH]; simpl; [constructor|].
  rewrite <- insert_by_name_perm. constructor. exact IH.
Qed.


Lemma filter_by_key_length {A} (key : A -> Z) (k : Z) (l : list A) :
  NoDup (map key l) ->
  (List.length (filter (fun a => (key a =? k)%Z) l) <= 1)%nat.
Proof.
  induction l as [|a l IH]; simpl; intros H; [lia|].
  inversion H as [|? ? Hnotin Hnd]; subst.
  destruct (key a =? k) eqn:E; [|auto].
  apply Z.eqb_eq in E.
  rewrite (existsb_false_filter (fun a0 => key a0 =? k) l); [simpl; lia|].
  destruct (existsb (fun a0 => key a0 =? k) l) eqn:Ex; [|reflexivity].
  apply existsb_exists in Ex as [b [Hb Hk]]. apply Z.eqb_eq in Hk.
  exfalso. apply Hnotin. apply in_map_iff. exists b. split; [congruence|assumption].
Qed.


Lemma sample_store_primary_keys : primary_keys sample_store.
Proof.
  split; vm_compute; repeat constructor; simpl; intuition discriminate.
Defined.

(** ** Reading the cart *)

Lemma in_join_cart_coffees (with_user : bool) (cart : list cart_row)
    (cs : list coffee_row) (l : cart_line) :
  In l (join_cart_coffees with_user cart cs) <->
  exists ci c, In ci cart /\ In c cs /\ ci_coffee_id ci = c_id c /\
               l = join_row with_user ci c.
Proof.
  unfold join_cart_coffees. rewrite in_flat_map. split.
  - intros [ci [Hci Hl]].
    apply in_map_iff in Hl as [c [Hl Hc]].
    apply filter_In in Hc as [Hc E]. apply Z.eqb_eq in E.
    exists ci, c. auto.
  - intros [ci [c [Hci [Hc [E Hl]]]]].
    exists ci. split; [exact Hci|].
    apply in_map_iff. exists c. split; [auto|].
    apply filter_In. split; [exact Hc|]. apply Z.eqb_eq. exact E.
Qed.

Lemma in_get_cart_items (user_id : option Z) (f : database) (l : cart_line) :
  In l (fst (get_cart_items user_id f)) <->
  exists ci c,
    In ci (cart_rows f) /\ In c (coffee_rows f) /\ ci_coffee_id ci = c_id c /\
    match user_id with
    | Some u => ci_user_id ci = u /\ l = join_row false ci c
    | None => l = join_row true ci c
    end.
Proof.
  rewrite get_cart_items_eq; cbn. destruct user_id as [u|];
    rewrite in_join_cart_coffees; split.
  - intros [ci [c [Hci [Hc [E Hl]]]]].
    apply filter_In in Hci as [Hci Hu]. apply Z.eqb_eq in Hu.
    exists ci, c. auto.
  - intros [ci [c [Hci [Hc [E [Hu Hl]]]]]].
    exists ci, c. repeat split; auto.
    apply filter_In. split; [exact Hci|]. apply Z.eqb_eq. exact Hu.
  - intros [ci [c H]]. exists ci, c. exact H.
  - intros [ci [c H]]. exists ci, c. exact H.
Qed.

Lemma join_skips_orphans (with_user : bool) (cart : list cart_row)
    (cs : list coffee_row) :
  join_cart_coffees with_user cart cs =
  join_cart_coffees with_user
    (filter (fun ci => existsb (fun c => ci_coffee_id ci =? c_id c) cs) cart) cs.
Proof.
  unfold join_cart_coffees.
  induction cart as [|ci cart IH]; simpl; [reflexivity|].
  destruct (existsb (fun c => ci_coffee_id ci =? c_id c) cs) eqn:E; simpl.
  - rewrite IH. reflexivity.
  - rewrite (existsb_false_filter _ _ E). simpl. exact IH.
Qed.

(** The lines of [get_cart_items] are those of the cart rows that reference a
    coffee row: dropping the other rows first gives the same result. *)
Lemma get_cart_items_skips_orphans (user_id : option Z) (f : database) :
  fst (get_cart_items user_id f) =
  join_cart_coffees (match user_id with Some _ => false | None => true end)
    (filter (fun ci => existsb (fun c => ci_coffee_id ci =? c_id c) (coffee_rows f))
            (match user_id with
             | Some u => filter (fun ci => ci_user_id ci =? u) (cart_rows f)
             | None => cart_rows f
             end))
    (coffee_rows f).
Proof.
  rewrite get_cart_items_eq; cbn.
  destruct user_id; apply join_skips_orphans.
Qed.

(** C10: [get_cart_items] is an inner join.  Every returned line carries the
    id of a coffee row of the catalog; a cart row whose [coffee_id] matches no
    coffee row yields no line, although the query leaves it (and the whole
    database) stored. *)
Theorem get_cart_items_inner_join (user_id : option Z) (f : database) :
  Forall (fun l => exists c, In c (coffee_rows f) /\ c_id c = l_coffee_id l)
         (fst (get_cart_items user_id f)) /\
  (forall ci, In ci (cart_rows f) ->
              coffee_exists (ci_coffee_id ci) f = false ->
              Forall (fun l => l_coffee_id l <> ci_coffee_id ci)
                     (fst (get_cart_items user_id f))) /\
  snd (get_cart_items user_id f) = f.
Proof.
  assert (forall l, In l (fst (get_cart_items user_id f)) ->
                    exists c, In c (coffee_rows f) /\ c_id c = l_coffee_id l) as Hline.
  { intros l Hl. apply in_get_cart_items in Hl as [ci [c [_ [Hc [_ Hl]]]]].
    exists c. split; [exact Hc|].
    destruct user_id as [u|]; [destruct Hl as [_ Hl]|]; subst l; reflexivity. }
  split; [apply Forall_forall; exact Hline|].
  split; [|rewrite get_cart_items_eq; reflexivity].
  intros ci _ Horphan. apply Forall_forall. intros l Hl Heq.
  destruct (Hline l Hl) as [c [Hc Hid]].
  unfold coffee_exists in Horphan.
  assert (existsb (fun c0 => c_id c0 =? ci_coffee_id ci) (coffee_rows f) = true) as Hex.
  { apply existsb_exists. exists c. split; [exact Hc|]. apply Z.eqb_eq. congruence. }
  congruence.
Qed.

(** ** Adding to the cart: the upsert *)

Lemma max_rowid_ge (ids : list Z) (x : Z) : In x ids -> x <= max_rowid ids.
Proof.
  induction ids as [|y ids IH]; simpl; intros H; [destruct H|].
  destruct H as [->|H]; [lia|]. specialize (IH H). lia.
Qed.

Lemma next_rowid_fresh (seq : Z) (ids : list Z) : ~ In (next_rowid seq ids) ids.
Proof.
  intros H. apply max_rowid_ge in H. unfold next_rowid in H. lia.
Qed.

Lemma NoDup_snoc {A} (l : list A) (a : A) :
  NoDup l -> ~ In a l -> NoDup (l ++ [a]).
Proof.
  intros Hl Ha. apply NoDup_app; [exact Hl | repeat constructor; intros [] |].
  intros b Hb [<-|[]]. exact (Ha Hb).
Qed.

Lemma coffee_exists_Some (c : Z) (f : database) :
  coffee_exists c f = true ->
  exists t x xs, f = Some t /\ filter (fun y => c_id y =? c) (coffees t) = x :: xs.
Proof.
  destruct f as [t|]; [|discriminate]. unfold coffee_exists; cbn. intros H.
  destruct (filter (fun y => c_id y =? c) (coffees t)) as [|x xs] eqn:E.
  - apply filter_nil_existsb in E. congruence.
  - exists t, x, xs. auto.
Qed.

Lemma with_count_key (ci : cart_row) (k : Z) : cart_key (with_count ci k) = cart_key ci.
Proof. reflexivity. Qed.

Lemma update_count_map {B} (g : cart_row -> B) (id k : Z) (l : list cart_row) :
  (forall ci, g (with_count ci k) = g ci) ->
  map g (map (fun ci => if ci_id ci =? id then with_count ci k else ci) l) = map g l.
Proof.
  intros Hg. rewrite map_map. apply map_ext. intros ci.
  destruct (ci_id ci =? id); auto.
Qed.

Lemma is_cart_row_of_key (u c : Z) (ci : cart_row) :
  is_cart_row_of u c ci = true <-> cart_key ci = (u, c).
Proof.
  unfold is_cart_row_of, cart_key.
  rewrite andb_true_iff, !Z.eqb_eq. split; [intros [-> ->]; reflexivity|].
  intros H; inversion H; auto.
Qed.

(** The row found by [fetchone] is the only one the UPDATE changes. *)
Lemma add_to_cart_existing now (u c n : Z) (f : database)
    (before after : list cart_row) (existing : cart_row) :
  coffee_exists c f = true ->
  NoDup (map ci_id (cart_rows f)) ->
  cart_rows f = before ++ existing :: after ->
  filter (is_cart_row_of u c) before = [] ->
  is_cart_row_of u c existing = true ->
  fst (add_to_cart now u c n f) = true /\
  coffee_rows (snd (add_to_cart now u c n f)) = coffee_rows f /\
  cart_rows (snd (add_to_cart now u c n f)) =
    before ++ with_count existing (ci_count existing + n) :: after.
Proof.
  intros Hex Hpk Hcart Hbefore Hrow.
  destruct (coffee_exists_Some _ _ Hex) as [t [x [xs [-> Hx]]]].
  cbn in Hcart, Hpk. rewrite add_to_cart_Some, Hx, Hcart.
  rewrite filter_app, Hbefore. simpl. rewrite Hrow. cbn.
  repeat split.
  rewrite Hcart, map_app in Hpk. simpl in Hpk.
  apply NoDup_remove_2 in Hpk.
  rewrite map_app. simpl. rewrite Z.eqb_refl.
  f_equal; [|f_equal]; apply (map_unchanged (fun ci => ci_id ci =? ci_id existing));
    intros ci Hci; apply Z.eqb_neq; intros E; apply Hpk; apply in_or_app;
    [left|right]; rewrite <- E; apply in_map; exact Hci.
Qed.

(** Without a row for the pair, one row is appended under a fresh id. *)
Lemma add_to_cart_new now (u c n : Z) (f : database) :
  coffee_exists c f = true ->
  filter (is_cart_row_of u c) (cart_rows f) = [] ->
  exists id,
    ~ In id (map ci_id (cart_rows f)) /\
    fst (add_to_cart now u c n f) = true /\
    coffee_rows (snd (add_to_cart now u c n f)) = coffee_rows f /\
    cart_rows (snd (add_to_cart now u c n f)) =
      cart_rows f ++ [mk_cart_item id u c n now].
Proof.
  intros Hex Hnone.
  destruct (coffee_exists_Some _ _ Hex) as [t [x [xs [-> Hx]]]].
  cbn in Hnone. rewrite add_to_cart_Some, Hx, Hnone. cbn.
  exists (next_rowid (cart_items_seq t) (map ci_id (cart_items t))).
  split; [apply next_rowid_fresh|]. repeat split.
Qed.

Lemma add_to_cart_twice now1 now2 (u c n m : Z) (f : database) :
  coffee_exists c f = true ->
  NoDup (map ci_id (cart_rows f)) ->
  filter (is_cart_row_of u c) (cart_rows f) = [] ->
  exists id,
    cart_rows (snd (add_to_cart now2 u c m (snd (add_to_cart now1 u c n f)))) =
      cart_rows f ++ [mk_cart_item id u c (n + m) now1].
Proof.
  intros Hex Hpk Hnone.
  destruct (add_to_cart_new now1 u c n f Hex Hnone) as [id [Hfresh [_ [Hcof Hcart]]]].
  exists id.
  set (f1 := snd (add_to_cart now1 u c n f)) in *.
  assert (coffee_exists c f1 = true) as Hex1
    by (unfold coffee_exists; rewrite Hcof; exact Hex).
  assert (NoDup (map ci_id (cart_rows f1))) as Hpk1.
  { rewrite Hcart, map_app. apply NoDup_snoc; assumption. }
  destruct (add_to_cart_existing now2 u c m f1 (cart_rows f) []
              (mk_cart_item id u c n now1) Hex1 Hpk1 Hcart Hnone)
    as [_ [_ H2]].
  - unfold is_cart_row_of; cbn. rewrite !Z.eqb_refl. reflexivity.
  - exact H2.
Qed.

(** With coffee [c] in the catalog, [add_to_cart(u, c, n)] returns
    [True], leaves the catalog alone, and either adds [n] to the count of the
    existing row of (u, c), every other row staying as it is, or, when there
    is no such row, appends one row for (u, c) with count [n].  Adding 2 and
    then 3 to a cart without a row for (u, c) leaves exactly one row for
    (u, c), with count 5. *)
Lemma add_to_cart_upsert now (u c n : Z) (f : database) :
  coffee_exists c f = true ->
  primary_keys f ->
  fst (add_to_cart now u c n f) = true /\
  coffee_rows (snd (add_to_cart now u c n f)) = coffee_rows f /\
  (forall before existing after,
     cart_rows f = before ++ existing :: after ->
     filter (is_cart_row_of u c) before = [] ->
     is_cart_row_of u c existing = true ->
     cart_rows (snd (add_to_cart now u c n f)) =
       before ++ with_count existing (ci_count existing + n) :: after) /\
  (filter (is_cart_row_of u c) (cart_rows f) = [] ->
     exists id,
       ~ In id (map ci_id (cart_rows f)) /\
       cart_rows (snd (add_to_cart now u c n f)) =
         cart_rows f ++ [mk_cart_item id u c n now]) /\
  (filter (is_cart_row_of u c) (cart_rows f) = [] ->
     forall now', exists id,
       filter (is_cart_row_of u c)
         (cart_rows (snd (add_to_cart now' u c 3 (snd (add_to_cart now u c 2 f))))) =
         [mk_cart_item id u c 5 now]).
Proof.
  intros Hex [_ Hpk].
  assert (fst (add_to_cart now u c n f) = true /\
          coffee_rows (snd (add_to_cart now u c n f)) = coffee_rows f) as [Hret Hcof].
  { destruct (coffee_exists_Some _ _ Hex) as [t [x [xs [-> Hx]]]].
    rewrite add_to_cart_Some, Hx.
    destruct (filter (is_cart_row_of u c) (cart_items t)); split; reflexivity. }
  split; [exact Hret|]. split; [exact Hcof|]. split; [|split].
  - intros before existing after Hcart Hbefore Hrow.
    apply (add_to_cart_existing now u c n f before after existing); assumption.
  - intros Hnone.
    destruct (add_to_cart_new now u c n f Hex Hnone) as [id [Hfresh [_ [_ Hcart]]]].
    exists id. split; assumption.
  - intros Hnone now'.
    destruct (add_to_cart_twice now now' u c 2 3 f Hex Hpk Hnone) as [id Hcart].
    exists id. rewrite Hcart, filter_app, Hnone. cbn.
    unfold is_cart_row_of; cbn. rewrite !Z.eqb_refl. reflexivity.
Qed.

(** ** Invariants of the reachable stores *)

Lemma add_to_cart_one_row_per_pair now (u c n : Z) (f : database) :
  one_row_per_pair f -> one_row_per_pair (snd (add_to_cart now u c n f)).
Proof.
  unfold one_row_per_pair. intros H.
  destruct f as [t|]; [|exact H]. cbn in H.
  rewrite add_to_cart_Some.
  destruct (filter (fun x => c_id x =? c) (coffees t)); [exact H|].
  destruct (filter (is_cart_row_of u c) (cart_items t)) as [|existing rest] eqn:E; cbn.
  - rewrite map_app. apply NoDup_snoc; [exact H|]. cbn.
    intros Hin. apply in_map_iff in Hin as [ci [Hkey Hci]].
    apply is_cart_row_of_key in Hkey.
    cbn in Hkey. pose proof (filter_nil_forall _ _ E ci Hci). congruence.
  - rewrite update_count_map; [exact H|]. intros ci. apply with_count_key.
Qed.

Lemma run_one_row_per_pair (op : operation) (f : database) :
  one_row_per_pair f -> one_row_per_pair (run op f).
Proof.
  unfold one_row_per_pair. intros H.
  destruct op as [|now name d p price|now id name d p price|id|now u c n|user_id]; simpl.
  - rewrite initialize_eq. destruct f; [exact H|constructor].
  - destruct f as [t|]; [|exact H]. exact H.
  - destruct f as [t|]; [|exact H]. exact H.
  - rewrite delete_coffee_cart_rows. exact H.
  - apply add_to_cart_one_row_per_pair. exact H.
  - destruct f as [t|]; [|rewrite clear_cart_None; exact H].
    rewrite clear_cart_Some. cbn.
    destruct user_id as [u'|]; [|constructor].
    apply NoDup_map_filter. exact H.
Qed.

Lemma run_all_invariant (P : database -> Prop) :
  (forall op f, P f -> P (run op f)) ->
  forall ops f, P f -> P (run_all ops f).
Proof.
  intros Hstep ops. unfold run_all.
  induction ops as [|op ops IH]; intros f Hf; simpl; [exact Hf|].
  apply IH. apply Hstep. exact Hf.
Qed.

Lemma run_primary_keys (op : operation) (f : database) :
  primary_keys f -> primary_keys (run op f).
Proof.
  unfold primary_keys. intros [Hc Hci].
  destruct op as [|now name d p price|now id name d p price|id|now u c n|user_id]; simpl.
  - rewrite initialize_eq. destruct f; cbn; [auto|split; constructor].
  - destruct f as [t|]; [|auto]. rewrite add_coffee_Some. cbn in *.
    split; [|exact Hci]. rewrite map_app. apply NoDup_snoc; [exact Hc|].
    apply next_rowid_fresh.
  - destruct f as [t|]; [|auto]. rewrite update_coffee_Some. cbn in *.
    split; [|exact Hci]. rewrite map_map.
    erewrite map_ext; [exact Hc|]. intros x. cbn. destruct (c_id x =? id); reflexivity.
  - destruct f as [t|]; [|auto]. rewrite delete_coffee_Some. cbn in *.
    split; [|exact Hci]. apply NoDup_map_filter. exact Hc.
  - destruct f as [t|]; [|auto]. rewrite add_to_cart_Some. cbn in *.
    destruct (filter (fun x => c_id x =? c) (coffees t)); [auto|].
    destruct (filter (is_cart_row_of u c) (cart_items t)); cbn.
    + split; [exact Hc|]. rewrite map_app. apply NoDup_snoc; [exact Hci|].
      apply next_rowid_fresh.
    + split; [exact Hc|]. rewrite update_count_map; [exact Hci|]. reflexivity.
  - destruct f as [t|]; [|rewrite clear_cart_None; auto].
    rewrite clear_cart_Some. cbn in *. split; [exact Hc|].
    destruct user_id; [apply NoDup_map_filter; exact Hci|constructor].
Qed.

(** Every reachable store satisfies the primary keys of its schema. *)
Lemma reachable_primary_keys (f : database) : reachable f -> primary_keys f.
Proof.
  intros [ops <-]. apply (run_all_invariant primary_keys run_primary_keys).
  split; constructor.
Qed.

(** C5: in every store reached from the empty one by [initialize],
    [add_coffee], [update_coffee], [delete_coffee], [add_to_cart] and
    [clear_cart], no two cart rows have the same user and the same coffee. *)
Theorem reachable_one_row_per_pair (f : database) :
  reachable f ->
  NoDup (map (fun ci => (ci_user_id ci, ci_coffee_id ci)) (cart_rows f)).
Proof.
  intros [ops <-].
  apply (run_all_invariant one_row_per_pair run_one_row_per_pair).
  constructor.
Qed.

Lemma reachable_one_row_per_pair_witness :
  reachable sample_store /\
  NoDup (map (fun ci => (ci_user_id ci, ci_coffee_id ci)) (cart_rows sample_store)).
Proof.
  assert (reachable sample_store) as H by (exists sample_history; reflexivity).
  split; [exact H | apply reachable_one_row_per_pair; exact H].
Defined.

(** * Further properties of the repository *)

(** ** Schema creation and the missing schema *)

(** [initialize] returns [True], creates the two empty tables when they are
    missing and otherwise keeps the file as it is; a second call changes
    nothing. *)
Theorem initialize_keeps_data (f : database) :
  fst (initialize f) = true /\
  initialized (snd (initialize f)) /\
  coffee_rows (snd (initialize f)) = coffee_rows f /\
  cart_rows (snd (initialize f)) = cart_rows f /\
  (initialized f -> snd (initialize f) = f) /\
  initialize (snd (initialize f)) = (true, snd (initialize f)).
Proof.
  rewrite initialize_eq. unfold initialized.
  destruct f as [t|]; cbn; repeat split; try discriminate; try reflexivity.
  intros H. exfalso. apply H. reflexivity.
Qed.

(** On a file without tables every statement raises [sqlite3.Error]; each
    method catches it, returns its failure value ([-1], [False] or the empty
    list) and leaves the file without tables. *)
Theorem methods_fail_without_tables now (id u c n : Z) (name : string)
    (d p : option string) (price : float) (some_id some_user : option Z) :
  add_coffee now name d p price empty_store = (-1, empty_store) /\
  update_coffee now id name d p price empty_store = (false, empty_store) /\
  delete_coffee id empty_store = (false, empty_store) /\
  list_coffee some_id empty_store = ([], empty_store) /\
  add_to_cart now u c n empty_store = (false, empty_store) /\
  clear_cart some_user empty_store = (false, empty_store) /\
  get_cart_items some_user empty_store = ([], empty_store).
Proof.
  destruct some_id, some_user; repeat split; reflexivity.
Qed.

(** ** The catalog: insert, update, delete and lookup *)


Lemma max_rowid_nonneg (ids : list Z) : 0 <= max_rowid ids.
Proof. induction ids as [|x ids IH]; simpl; lia. Qed.

Lemma rowcount_positive {A} (p : A -> bool) (l : list A) :
  (0 <? Z.of_nat (List.length (filter p l))) = existsb p l.
Proof.
  induction l as [|a l IH]; simpl; [reflexivity|].
  destruct (p a); simpl; [|exact IH].
  apply Z.ltb_lt. lia.
Qed.




(** [delete_coffee] returns [True] exactly when a row had the id; it removes
    the rows with that id and nothing else: the other catalog rows keep
    their order, lookups of other ids are as before, and the cart table is
    not touched. *)
Lemma delete_coffee_result (id : Z) (f : database) :
  let f' := snd (delete_coffee id f) in
  fst (delete_coffee id f) = coffee_exists id f /\
  coffee_rows f' = filter (fun c => negb (c_id c =? id)) (coffee_rows f) /\
  coffee_exists id f' = false /\
  (forall id', id' <> id ->
     fst (list_coffee (Some id') f') = fst (list_coffee (Some id') f)) /\
  cart_rows f' = cart_rows f.
Proof.
  cbn zeta. destruct f as [t|]; [|repeat split; reflexivity].
  rewrite delete_coffee_Some. cbn [fst snd].
  split; [apply rowcount_positive|]. split; [reflexivity|]. split; [|split].
  - unfold coffee_exists; cbn.
    induction (coffees t) as [|c l IH]; simpl; [reflexivity|].
    destruct (c_id c =? id) eqn:E; simpl; [exact IH|]. rewrite E. exact IH.
  - intros id' Hne. rewrite !list_coffee_by_id. cbn.
    induction (coffees t) as [|c l IH]; simpl; [reflexivity|].
    destruct (c_id c =? id) eqn:E; simpl.
    + apply Z.eqb_eq in E. apply Z.eqb_neq in Hne.
      rewrite E, Z.eqb_sym, Hne. exact IH.
    + destruct (c_id c =? id'); [f_equal|]; exact IH.
  - reflexivity.
Qed.


(** ** The cart: what an operation leaves alone *)

Lemma add_to_cart_returns (now : timestamp) (u c n : Z) (f : database) :
  fst (add_to_cart now u c n f) = coffee_exists c f /\
  coffee_rows (snd (add_to_cart now u c n f)) = coffee_rows f.
Proof.
  destruct (coffee_exists c f) eqn:Hex.
  - destruct (coffee_exists_Some _ _ Hex) as [t [x [xs [-> Hx]]]].
    rewrite add_to_cart_Some, Hx.
    destruct (filter (is_cart_row_of u c) (cart_items t)); split; reflexivity.
  - destruct f as [t|]; [|split; reflexivity].
    rewrite add_to_cart_Some.
    unfold coffee_exists in Hex; cbn in Hex.
    rewrite (existsb_false_filter _ _ Hex). split; reflexivity.
Qed.

Lemma NoDup_map_same_key {A B} (key : A -> B) (l : list A) (a b : A) :
  NoDup (map key l) -> In a l -> In b l -> key a = key b -> a = b.
Proof.
  induction l as [|x l IH]; simpl; intros Hnd Ha Hb E; [destruct Ha|].
  inversion Hnd as [|? ? Hnotin Hnd']; subst.
  destruct Ha as [->|Ha], Hb as [->|Hb]; auto.
  - exfalso. apply Hnotin. rewrite E. apply in_map. exact Hb.
  - exfalso. apply Hnotin. rewrite <- E. apply in_map. exact Ha.
Qed.

(** [add_to_cart(u, c, n)] changes no cart row of another (user, coffee)
    pair: those rows are the same, in the same order, whatever the call
    returns, so the cart that [get_cart_items] shows to any other user is the
    same; the catalog is not touched. *)
Theorem add_to_cart_other_rows now (u c n : Z) (f : database) :
  NoDup (map ci_id (cart_rows f)) ->
  let f' := snd (add_to_cart now u c n f) in
  filter (fun ci => negb (is_cart_row_of u c ci)) (cart_rows f') =
    filter (fun ci => negb (is_cart_row_of u c ci)) (cart_rows f) /\
  (forall u', u' <> u ->
     fst (get_cart_items (Some u') f') = fst (get_cart_items (Some u') f)) /\
  coffee_rows f' = coffee_rows f.
Proof.
  intros Hpk. cbn zeta.
  assert (filter (fun ci => negb (is_cart_row_of u c ci))
            (cart_rows (snd (add_to_cart now u c n f))) =
          filter (fun ci => negb (is_cart_row_of u c ci)) (cart_rows f)) as Hrows.
  { destruct f as [t|]; [|reflexivity]. cbn in Hpk. rewrite add_to_cart_Some.
    destruct (filter (fun x => c_id x =? c) (coffees t)); [reflexivity|].
    destruct (filter (is_cart_row_of u c) (cart_items t)) as [|existing rest] eqn:E; cbn.
    - rewrite filter_app. cbn. unfold is_cart_row_of at 2. cbn.
      rewrite !Z.eqb_refl. cbn. apply app_nil_r.
    - assert (In existing (cart_items t) /\ is_cart_row_of u c existing = true)
        as [Hin Hrow].
      { apply filter_In. rewrite E. left. reflexivity. }
      assert (forall rows, (forall ci, In ci rows -> In ci (cart_items t)) ->
                filter (fun ci => negb (is_cart_row_of u c ci))
                  (map (fun ci => if ci_id ci =? ci_id existing
                                  then with_count ci (ci_count existing + n)
                                  else ci) rows) =
                filter (fun ci => negb (is_cart_row_of u c ci)) rows) as Hgen.
      { intros rows. induction rows as [|ci rows IH]; intros Hsub; simpl; [reflexivity|].
        rewrite IH by (intros x Hx; apply Hsub; right; exact Hx).
        destruct (ci_id ci =? ci_id existing) eqn:Eid; [|reflexivity].
        apply Z.eqb_eq in Eid.
        assert (ci = existing) as ->.
        { apply (NoDup_map_same_key ci_id (cart_items t)); auto.
          apply Hsub. left. reflexivity. }
        replace (is_cart_row_of u c (with_count existing (ci_count existing + n)))
          with (is_cart_row_of u c existing) by reflexivity.
        rewrite Hrow. reflexivity. }
      apply Hgen. auto. }
  pose proof (add_to_cart_returns now u c n f) as [_ Hcof].
  split; [exact Hrows|]. split; [|exact Hcof].
  intros u' Hne. rewrite !get_cart_items_eq. cbn [fst]. rewrite Hcof. f_equal.
  assert (forall rows, filter (fun ci => ci_user_id ci =? u') rows =
                    filter (fun ci => ci_user_id ci =? u')
                      (filter (fun ci => negb (is_cart_row_of u c ci)) rows)) as Hfil.
  { intros rows. induction rows as [|ci rows IH]; simpl; [reflexivity|].
    unfold is_cart_row_of at 1.
    destruct (ci_user_id ci =? u') eqn:Eu; simpl.
    - apply Z.eqb_eq in Eu. apply Z.eqb_neq in Hne.
      rewrite Eu, Hne. simpl. rewrite <- Eu at 1. rewrite Z.eqb_refl.
      f_equal. exact IH.
    - destruct (negb ((ci_user_id ci =? u) && (ci_coffee_id ci =? c))); simpl;
        [rewrite Eu|]; exact IH. }
  rewrite (Hfil (cart_rows (snd (add_to_cart now u c n f)))), Hrows, <- Hfil.
  reflexivity.
Qed.

Lemma add_to_cart_other_rows_witness :
  NoDup (map ci_id (cart_rows sample_store)) /\
  fst (get_cart_items (Some 7)
         (snd (add_to_cart "2024-01-02 09:00:00" 42 2 3 sample_store))) =
  fst (get_cart_items (Some 7) sample_store).
Proof.
  split; [exact (proj2 sample_store_primary_keys)|].
  apply (proj1 (proj2 (add_to_cart_other_rows "2024-01-02 09:00:00" 42 2 3
                         sample_store (proj2 sample_store_primary_keys)))).
  discriminate.
Defined.


(** ** Ids are never issued twice *)

Lemma next_rowid_above (seq : Z) (ids : list Z) : seq < next_rowid seq ids.
Proof. unfold next_rowid. lia. Qed.

Lemma run_coffee_ids_issued (op : operation) (f : database) :
  coffee_ids_issued f -> coffee_ids_issued (run op f).
Proof.
  intros H.
  destruct op as [|now name d p price|now id name d p price|id|now u c n|user_id]; simpl.
  - rewrite initialize_eq. destruct f; cbn; [exact H|]. split; intros ? [].
  - destruct f as [t|]; [|exact H]. rewrite add_coffee_Some. cbn in *.
    destruct H as [Hc Hci].
    pose proof (next_rowid_above (coffees_seq t) (map c_id (coffees t))) as Hlt.
    split.
    + intros c Hin. apply in_app_or in Hin as [Hin|[<-|[]]]; [|cbn; lia].
      specialize (Hc c Hin). lia.
    + intros ci Hin. specialize (Hci ci Hin). lia.
  - destruct f as [t|]; [|exact H]. rewrite update_coffee_Some. cbn in *.
    destruct H as [Hc Hci]. split; [|exact Hci].
    intros c Hin. apply in_map_iff in Hin as [c0 [<- Hin]].
    specialize (Hc c0 Hin). destruct (c_id c0 =? id); exact Hc.
  - destruct f as [t|]; [|exact H]. rewrite delete_coffee_Some. cbn in *.
    destruct H as [Hc Hci]. split; [|exact Hci].
    intros c Hin. apply filter_In in Hin as [Hin _]. auto.
  - destruct f as [t|]; [|exact H]. rewrite add_to_cart_Some. cbn in *.
    destruct H as [Hc Hci].
    destruct (filter (fun x => c_id x =? c) (coffees t)) as [|x xs] eqn:Ex;
      [split; assumption|].
    assert (c <= coffees_seq t) as Hle.
    { assert (In x (filter (fun x => c_id x =? c) (coffees t))) as Hx
        by (rewrite Ex; left; reflexivity).
      apply filter_In in Hx as [Hx E]. apply Z.eqb_eq in E. rewrite <- E. auto. }
    destruct (filter (is_cart_row_of u c) (cart_items t)); cbn; split; try exact Hc.
    + intros ci Hin. apply in_app_or in Hin as [Hin|[<-|[]]]; [auto|exact Hle].
    + intros ci Hin. apply in_map_iff in Hin as [ci0 [<- Hin]].
      specialize (Hci ci0 Hin). destruct (ci_id ci0 =? ci_id c0); exact Hci.
  - destruct f as [t|]; [|rewrite clear_cart_None; exact H].
    rewrite clear_cart_Some. cbn in *. destruct H as [Hc Hci]. split; [exact Hc|].
    destruct user_id; [|intros ? []].
    intros ci Hin. apply filter_In in Hin as [Hin _]. auto.
Qed.

Lemma reachable_coffee_ids_issued (f : database) :
  reachable f -> coffee_ids_issued f.
Proof.
  intros [ops <-]. apply (run_all_invariant coffee_ids_issued run_coffee_ids_issued).
  exact I.
Qed.



(** ** The cart as [get_cart_items] shows it *)

Lemma join_line_ids (with_user : bool) (cart : list cart_row) (cs : list coffee_row)
    (l : cart_line) :
  In l (join_cart_coffees with_user cart cs) ->
  In (l_coffee_id l) (map ci_coffee_id cart).
Proof.
  intros H. apply in_join_cart_coffees in H as [ci [c [Hci [_ [E ->]]]]].
  cbn. rewrite <- E. apply in_map. exact Hci.
Qed.

Lemma join_one_line_per_row (with_user : bool) (cart : list cart_row)
    (cs : list coffee_row) :
  NoDup (map c_id cs) ->
  NoDup (map ci_coffee_id cart) ->
  NoDup (map l_coffee_id (join_cart_coffees with_user cart cs)).
Proof.
  intros Hpk. induction cart as [|ci cart IH]; simpl; intros Hnd; [constructor|].
  inversion Hnd as [|? ? Hnotin Hnd']; subst.
  change (flat_map _ cart) with (join_cart_coffees with_user cart cs).
  rewrite map_app. apply NoDup_app.
  - pose proof (filter_by_key_length c_id (ci_coffee_id ci) cs Hpk) as Hlen.
    assert (filter (fun c => ci_coffee_id ci =? c_id c) cs =
            filter (fun c => c_id c =? ci_coffee_id ci) cs) as ->
      by (apply filter_ext; intros c; apply Z.eqb_sym).
    destruct (filter (fun c => c_id c =? ci_coffee_id ci) cs) as [|c [|c' rest]];
      simpl in *; [constructor | repeat constructor; intros [] | lia].
  - apply IH. exact Hnd'.
  - intros id Hin1 Hin2.
    apply in_map_iff in Hin1 as [l [<- Hl]].
    apply in_map_iff in Hl as [c [<- Hc]].
    apply filter_In in Hc as [_ E]. apply Z.eqb_eq in E.
    apply in_map_iff in Hin2 as [l' [El Hl']].
    apply join_line_ids in Hl'. cbn in El. rewrite El, <- E in Hl'.
    exact (Hnotin Hl').
Qed.

Lemma user_rows_distinct_coffees (u : Z) (cart : list cart_row) :
  NoDup (map cart_key cart) ->
  NoDup (map ci_coffee_id (filter (fun ci => ci_user_id ci =? u) cart)).
Proof.
  induction cart as [|ci cart IH]; simpl; intros Hnd; [constructor|].
  inversion Hnd as [|? ? Hnotin Hnd']; subst.
  destruct (ci_user_id ci =? u) eqn:E; simpl; [|auto].
  constructor; [|auto].
  intros Hin. apply in_map_iff in Hin as [ci' [Ec Hin]].
  apply filter_In in Hin as [Hin Eu].
  apply Z.eqb_eq in E, Eu. apply Hnotin.
  apply in_map_iff. exists ci'. split; [|exact Hin].
  unfold cart_key. congruence.
Qed.

(** With the primary key of [coffees] and one cart row per (user, coffee)
    pair, [get_cart_items(u)] has at most one line per coffee and never more
    lines than [u] has cart rows. *)
Theorem cart_lines_distinct_coffees (u : Z) (f : database) :
  NoDup (map c_id (coffee_rows f)) ->
  one_row_per_pair f ->
  NoDup (map l_coffee_id (fst (get_cart_items (Some u) f))) /\
  (List.length (fst (get_cart_items (Some u) f)) <=
   List.length (filter (fun ci => (ci_user_id ci =? u)%Z) (cart_rows f)))%nat.
Proof.
  intros Hpk Hone. rewrite get_cart_items_eq. cbn [fst]. split.
  - apply join_one_line_per_row; [exact Hpk|].
    apply user_rows_distinct_coffees. exact Hone.
  - unfold join_cart_coffees.
    induction (filter (fun ci => ci_user_id ci =? u) (cart_rows f)) as [|ci cart IH];
      simpl; [lia|].
    rewrite length_app, length_map.
    pose proof (filter_by_key_length c_id (ci_coffee_id ci) (coffee_rows f) Hpk) as Hlen.
    assert (filter (fun c => ci_coffee_id ci =? c_id c) (coffee_rows f) =
            filter (fun c => c_id c =? ci_coffee_id ci) (coffee_rows f)) as ->
      by (apply filter_ext; intros c; apply Z.eqb_sym).
    lia.
Qed.

Lemma cart_lines_distinct_coffees_witness :
  NoDup (map c_id (coffee_rows sample_store)) /\
  one_row_per_pair sample_store /\
  NoDup (map l_coffee_id (fst (get_cart_items (Some 42) sample_store))).
Proof.
  assert (one_row_per_pair sample_store) as H.
  { unfold one_row_per_pair. vm_compute. repeat constructor; simpl; intuition discriminate. }
  split; [exact (proj1 sample_store_primary_keys)|]. split; [exact H|].
  exact (proj1 (cart_lines_distinct_coffees 42 sample_store
                  (proj1 sample_store_primary_keys) H)).
Defined.

Lemma join_row_without_coffee (with_user : bool) (ci : cart_row)
    (cs : list coffee_row) (id : Z) :
  map (join_row with_user ci)
    (filter (fun c => ci_coffee_id ci =? c_id c)
       (filter (fun c => negb (c_id c =? id)) cs)) =
  filter (fun l => negb (l_coffee_id l =? id))
    (map (join_row with_user ci) (filter (fun c => ci_coffee_id ci =? c_id c) cs)).
Proof.
  induction cs as [|c cs IHcs]; simpl; [reflexivity|].
  destruct (c_id c =? id) eqn:E; simpl.
  - destruct (ci_coffee_id ci =? c_id c); simpl; [rewrite E; simpl|]; exact IHcs.
  - destruct (ci_coffee_id ci =? c_id c); simpl; [rewrite E; simpl; f_equal|]; exact IHcs.
Qed.

Lemma join_without_coffee (with_user : bool) (cart : list cart_row)
    (cs : list coffee_row) (id : Z) :
  join_cart_coffees with_user cart (filter (fun c => negb (c_id c =? id)) cs) =
  filter (fun l => negb (l_coffee_id l =? id)) (join_cart_coffees with_user cart cs).
Proof.
  unfold join_cart_coffees.
  induction cart as [|ci cart IH]; simpl; [reflexivity|].
  rewrite filter_app, IH, join_row_without_coffee. reflexivity.
Qed.

(** After [delete_coffee(id)] the lines of that coffee are gone from every
    cart that [get_cart_items] returns and all other lines are as before,
    and [add_to_cart] for the deleted id returns [False] and changes
    nothing. *)
Lemma delete_coffee_hides_lines (id : Z) (f : database) :
  let f' := snd (delete_coffee id f) in
  (forall user_id,
     fst (get_cart_items user_id f') =
     filter (fun l => negb (l_coffee_id l =? id)) (fst (get_cart_items user_id f))) /\
  (forall now u n, add_to_cart now u id n f' = (false, f')).
Proof.
  cbn zeta. split.
  - intros user_id. rewrite !get_cart_items_eq. cbn [fst].
    destruct f as [t|]; [|destruct user_id; reflexivity].
    rewrite delete_coffee_Some. cbn.
    destruct user_id; apply join_without_coffee.
  - intros now u n.
    destruct f as [t|]; [|reflexivity].
    rewrite delete_coffee_Some. cbn [snd]. rewrite add_to_cart_Some. cbn.
    assert (filter (fun x => c_id x =? id)
              (filter (fun c => negb (c_id c =? id)) (coffees t)) = []) as ->.
    { induction (coffees t) as [|c l IH]; simpl; [reflexivity|].
      destruct (c_id c =? id) eqn:E; simpl; [exact IH|]. rewrite E. exact IH. }
    reflexivity.
Qed.

Lemma filter_user_cleared (u : Z) (l : list cart_row) :
  filter (fun ci => ci_user_id ci =? u)
    (filter (fun ci => negb (ci_user_id ci =? u)) l) = [].
Proof.
  induction l as [|ci l IH]; simpl; [reflexivity|].
  destruct (ci_user_id ci =? u) eqn:E; simpl; [exact IH|]. rewrite E. exact IH.
Qed.

Lemma filter_other_user (u u' : Z) (l : list cart_row) :
  u' <> u ->
  filter (fun ci => ci_user_id ci =? u')
    (filter (fun ci => negb (ci_user_id ci =? u)) l) =
  filter (fun ci => ci_user_id ci =? u') l.
Proof.
  intros Hne. induction l as [|ci l IH]; simpl; [reflexivity|].
  destruct (ci_user_id ci =? u) eqn:E; simpl.
  - apply Z.eqb_eq in E. apply Z.eqb_neq in Hne.
    rewrite E, Z.eqb_sym, Hne. exact IH.
  - destruct (ci_user_id ci =? u'); [f_equal|]; exact IH.
Qed.

Lemma clear_cart_rows (user_id : option Z) (f : database) :
  cart_rows (snd (clear_cart user_id f)) =
    (match user_id with
     | Some u => filter (fun ci => negb (ci_user_id ci =? u)) (cart_rows f)
     | None => []
     end) /\
  coffee_rows (snd (clear_cart user_id f)) = coffee_rows f.
Proof. destruct f, user_id; split; reflexivity. Qed.

(** After [clear_cart(u)] the cart of [u] is empty and the cart of every
    other user is what [get_cart_items] returned before; after [clear_cart()]
    every cart is empty. *)
Lemma clear_cart_then_get (f : database) :
  (forall u,
     fst (get_cart_items (Some u) (snd (clear_cart (Some u) f))) = [] /\
     forall u', u' <> u ->
       fst (get_cart_items (Some u') (snd (clear_cart (Some u) f))) =
       fst (get_cart_items (Some u') f)) /\
  (forall user_id, fst (get_cart_items user_id (snd (clear_cart None f))) = []).
Proof.
  split.
  - intros u. destruct (clear_cart_rows (Some u) f) as [Hcart Hcof]. split.
    + rewrite get_cart_items_eq. cbn [fst].
      rewrite Hcart, filter_user_cleared. reflexivity.
    + intros u' Hne. rewrite !get_cart_items_eq. cbn [fst].
      rewrite Hcart, Hcof, (filter_other_user u u') by exact Hne. reflexivity.
  - intros user_id. destruct (clear_cart_rows None f) as [Hcart Hcof].
    rewrite get_cart_items_eq. cbn [fst]. rewrite Hcart.
    destruct user_id; reflexivity.
Qed.

(** The cart of one user is the part of the query over all users that
    carries this user's id, in the same order, without the [user_id] column. *)
Lemma scoped_cart_of_all_carts (u : Z) (f : database) :
  fst (get_cart_items (Some u) f) =
  map without_user
    (filter (fun l => match l_user_id l with Some v => v =? u | None => false end)
            (fst (get_cart_items None f))).
Proof.
  rewrite !get_cart_items_eq. cbn [fst]. unfold join_cart_coffees.
  induction (cart_rows f) as [|ci cart IH]; simpl; [reflexivity|].
  rewrite filter_app, map_app, <- IH.
  assert (forall cs,
            map without_user
              (filter (fun l => match l_user_id l with Some v => v =? u | None => false end)
                 (map (join_row true ci) cs)) =
            if ci_user_id ci =? u then map (join_row false ci) cs else []) as Hinner.
  { intros cs. induction cs as [|c cs IHcs]; simpl.
    - destruct (ci_user_id ci =? u); reflexivity.
    - destruct (ci_user_id ci =? u) eqn:E; simpl; rewrite IHcs; reflexivity. }
  rewrite Hinner.
  destruct (ci_user_id ci =? u); reflexivity.
Qed.


(** * Further properties of the handlers *)

(** ** The cart view *)

Lemma string_append_assoc (a b c : string) :
  ((a ++ b) ++ c)%string = (a ++ (b ++ c))%string.
Proof. induction a as [|x a IH]; simpl; [reflexivity|]. rewrite IH. reflexivity. Qed.

Lemma string_append_nil_r (a : string) : (a ++ "")%string = a.
Proof. induction a as [|x a IH]; simpl; [reflexivity|]. rewrite IH. reflexivity. Qed.

Lemma cart_lines_empty_iff (u : Z) (f : database) :
  fst (get_cart_items (Some u) f) = [] <->
  (forall ci, In ci (cart_rows f) -> ci_user_id ci = u ->
              coffee_exists (ci_coffee_id ci) f = false).
Proof.
  split.
  - intros Hnil ci Hci Hu.
    destruct (coffee_exists (ci_coffee_id ci) f) eqn:Hex; [|reflexivity].
    unfold coffee_exists in Hex. apply existsb_exists in Hex as [c [Hc E]].
    apply Z.eqb_eq in E.
    assert (In (join_row false ci c) (fst (get_cart_items (Some u) f))) as Hin.
    { apply in_get_cart_items. exists ci, c. auto. }
    rewrite Hnil in Hin. destruct Hin.
  - intros Hno.
    destruct (fst (get_cart_items (Some u) f)) as [|l ls] eqn:E; [reflexivity|].
    assert (In l (fst (get_cart_items (Some u) f))) as Hin by (rewrite E; left; reflexivity).
    apply in_get_cart_items in Hin as [ci [c [Hci [Hc [Eid [Hu _]]]]]].
    specialize (Hno ci Hci Hu). unfold coffee_exists in Hno.
    assert (existsb (fun c0 => c_id c0 =? ci_coffee_id ci) (coffee_rows f) = true) as Hex.
    { apply existsb_exists. exists c. split; [exact Hc|]. apply Z.eqb_eq. auto. }
    congruence.
Qed.

(** ** Clearing the cart from the menu *)



(** ** Callback tokens: [str], [int] and [split] *)

Lemma all_chars_impl (p q : ascii -> bool) (s : string) :
  (forall a, p a = true -> q a = true) ->
  all_chars p s = true -> all_chars q s = true.
Proof.
  intros Hpq. induction s as [|a r IH]; simpl; [reflexivity|].
  intros H. apply andb_true_iff in H as [Ha Hr].
  rewrite (Hpq a Ha), (IH Hr). reflexivity.
Qed.

Lemma uint_string_digits (d : Decimal.uint) :
  all_chars Python.isdigit (NilEmpty.string_of_uint d) = true.
Proof. induction d; simpl; auto. Qed.

Lemma isdigit_not_space (a : ascii) :
  Python.isdigit a = true -> Python.int_space a = false.
Proof.
  unfold Python.isdigit, Python.int_space. intros H.
  apply andb_true_iff in H as [H1 H2].
  apply Nat.leb_le in H1, H2.
  apply orb_false_iff. split.
  - apply andb_false_iff. right. apply Nat.leb_gt. lia.
  - apply Nat.eqb_neq. lia.
Qed.

Lemma isdigit_not_char (a b : ascii) :
  Python.isdigit b = false -> Python.isdigit a = true -> Ascii.eqb a b = false.
Proof.
  intros Hb Ha. apply Ascii.eqb_neq. intros ->. congruence.
Qed.

Lemma lstrip_no_space (s : string) :
  all_chars (fun a => negb (Python.int_space a)) s = true -> Python.skip_head s = s.
Proof.
  destruct s as [|a r]; simpl; [reflexivity|].
  intros H. apply andb_true_iff in H as [Ha _].
  apply negb_true_iff in Ha. rewrite Ha. reflexivity.
Qed.

Lemma rstrip_no_space (s : string) :
  all_chars (fun a => negb (Python.int_space a)) s = true -> Python.skip_tail s = s.
Proof.
  induction s as [|a r IH]; simpl; [reflexivity|].
  intros H. apply andb_true_iff in H as [Ha Hr].
  apply negb_true_iff in Ha. rewrite (IH Hr), Ha.
  destruct r; reflexivity.
Qed.

Lemma strip_no_space (s : string) :
  all_chars (fun a => negb (Python.int_space a)) s = true -> Python.skip_tail (Python.skip_head s) = s.
Proof.
  intros H. rewrite (lstrip_no_space s H). apply rstrip_no_space. exact H.
Qed.

Lemma drop_underscores_digits (s : string) :
  all_chars Python.isdigit s = true ->
  Python.drop_underscores true s = Some s.
Proof.
  induction s as [|a r IH]; simpl; [reflexivity|].
  intros H. apply andb_true_iff in H as [Ha Hr].
  rewrite (isdigit_not_char a "_" eq_refl Ha), Ha, (IH Hr). reflexivity.
Qed.

Lemma int_of_digits (d : Decimal.uint) (negative : bool) :
  d <> Decimal.Nil ->
  Python.int ((if negative then "-" else "") ++ NilEmpty.string_of_uint d) =
  Some (if negative then - Z.of_uint d else Z.of_uint d).
Proof.
  intros Hd.
  pose proof (uint_string_digits d) as Hdig.
  assert (NilZero.uint_of_string (NilEmpty.string_of_uint d) = Some d) as Hparse.
  { pose proof (NilZero.usu d Hd) as H. destruct d; try exact H. contradiction. }
  assert (all_chars (fun a => negb (Python.int_space a)) (NilEmpty.string_of_uint d) = true)
    as Hns.
  { apply (all_chars_impl Python.isdigit); [|exact Hdig].
    intros a Ha. rewrite (isdigit_not_space a Ha). reflexivity. }
  destruct (NilEmpty.string_of_uint d) as [|a r] eqn:Es.
  { discriminate Hparse. }
  simpl in Hdig. apply andb_true_iff in Hdig as [Ha Hr].
  unfold Python.int. destruct negative.
  - rewrite strip_no_space by (simpl; exact Hns). simpl.
    rewrite (isdigit_not_char a "_" eq_refl Ha), Ha.
    rewrite (drop_underscores_digits r Hr). simpl.
    change (NilEmpty.uint_of_string (String a r)) with
      (NilZero.uint_of_string (String a r)) in *.
    simpl in Hparse. rewrite Hparse. reflexivity.
  - rewrite strip_no_space by exact Hns. simpl.
    rewrite (isdigit_not_char a "-" eq_refl Ha), (isdigit_not_char a "+" eq_refl Ha).
    simpl. rewrite (isdigit_not_char a "_" eq_refl Ha), Ha.
    rewrite (drop_underscores_digits r Hr). simpl.
    simpl in Hparse. rewrite Hparse. reflexivity.
Qed.

(** Reading back the decimal text of an integer gives the integer. *)
Lemma int_str (n : Z) : Python.int (str n) = Some n.
Proof.
  unfold str. destruct n as [|p|p]; [reflexivity| |]; simpl.
  - pose proof (int_of_digits (Pos.to_uint p) false (Unsigned.to_uint_nonnil p)) as H.
    simpl in H.
    replace (NilZero.string_of_uint (Pos.to_uint p))
      with (NilEmpty.string_of_uint (Pos.to_uint p))
      by (pose proof (Unsigned.to_uint_nonnil p); destruct (Pos.to_uint p);
          try reflexivity; contradiction).
    rewrite H. unfold Z.of_uint. rewrite Unsigned.of_to. reflexivity.
  - pose proof (int_of_digits (Pos.to_uint p) true (Unsigned.to_uint_nonnil p)) as H.
    simpl in H.
    replace (NilZero.string_of_uint (Pos.to_uint p))
      with (NilEmpty.string_of_uint (Pos.to_uint p))
      by (pose proof (Unsigned.to_uint_nonnil p); destruct (Pos.to_uint p);
          try reflexivity; contradiction).
    rewrite H. unfold Z.of_uint. rewrite Unsigned.of_to. reflexivity.
Qed.

Lemma str_inj (n m : Z) : str n = str m -> n = m.
Proof.
  intros H. pose proof (int_str n) as Hn. rewrite H, int_str in Hn. congruence.
Qed.

Lemma str_no_underscore (n : Z) :
  all_chars (fun a => negb (Ascii.eqb a "_")) (str n) = true.
Proof.
  assert (forall d, all_chars (fun a => negb (Ascii.eqb a "_"))
                      (NilZero.string_of_uint d) = true) as Hd.
  { intros d. destruct d; try reflexivity;
      apply (all_chars_impl Python.isdigit);
      try (intros a Ha; rewrite (isdigit_not_char a "_" eq_refl Ha); reflexivity);
      apply (uint_string_digits (_ d)). }
  unfold str. destruct (Z.to_int n); simpl; [apply Hd|]. apply Hd.
Qed.

Lemma split_no_sep (sep : ascii) (s : string) :
  all_chars (fun a => negb (Ascii.eqb a sep)) s = true ->
  Python.split sep s = [s].
Proof.
  induction s as [|a r IH]; simpl; [reflexivity|].
  intros H. apply andb_true_iff in H as [Ha Hr].
  apply negb_true_iff in Ha. rewrite Ha, (IH Hr). reflexivity.
Qed.

Lemma split_at_sep (sep : ascii) (s rest : string) :
  all_chars (fun a => negb (Ascii.eqb a sep)) s = true ->
  Python.split sep (s ++ String sep rest) = s :: Python.split sep rest.
Proof.
  induction s as [|a r IH]; simpl.
  - intros _. rewrite Ascii.eqb_refl. reflexivity.
  - intros H. apply andb_true_iff in H as [Ha Hr].
    apply negb_true_iff in Ha. rewrite Ha, (IH Hr). reflexivity.
Qed.

Lemma split_add_token (coffee_id count : Z) :
  Python.split "_" ("add_" ++ str coffee_id ++ "_" ++ str count) =
  ["add"; str coffee_id; str count]%string.
Proof.
  change ("add_" ++ str coffee_id ++ "_" ++ str count)%string
    with ("add" ++ String "_" (str coffee_id ++ String "_" (str count)))%string.
  rewrite split_at_sep by reflexivity.
  rewrite split_at_sep by apply str_no_underscore.
  rewrite split_no_sep by apply str_no_underscore.
  reflexivity.
Qed.

Lemma split_coffee_token (coffee_id : Z) :
  Python.split "_" ("coffee_" ++ str coffee_id) = ["coffee"; str coffee_id]%string.
Proof.
  change ("coffee_" ++ str coffee_id)%string
    with ("coffee" ++ String "_" (str coffee_id))%string.
  rewrite split_at_sep by reflexivity.
  rewrite split_no_sep by apply str_no_underscore.
  reflexivity.
Qed.


(** ** Adding to the cart from the buttons *)

Lemma list_coffee_after_add_to_cart now (u c n : Z) (f : database) :
  list_coffee (Some c) (snd (add_to_cart now u c n f)) =
  (filter (fun x => c_id x =? c) (coffee_rows f), snd (add_to_cart now u c n f)).
Proof.
  pose proof (add_to_cart_returns now u c n f) as [_ Hcof].
  rewrite (surjective_pairing (list_coffee _ _)).
  rewrite list_coffee_by_id, list_coffee_unchanged, Hcof. reflexivity.
Qed.

Lemma startswith_append (prefix rest : string) :
  Python.startswith (prefix ++ rest) prefix = true.
Proof.
  unfold Python.startswith.
  induction prefix as [|a p IH]; simpl; [destruct rest; reflexivity|].
  destruct (ascii_dec a a) as [_|Hne]; [exact IH|contradiction].
Qed.



(** ** From the menu to a coffee's details *)

Lemma list_coffee_eq (coffee_id : option Z) (f : database) :
  list_coffee coffee_id f =
  (match coffee_id with
   | Some id => filter (fun c => c_id c =? id) (coffee_rows f)
   | None => order_by_name (coffee_rows f)
   end, f).
Proof. destruct f, coffee_id; reflexivity. Qed.

Lemma filter_by_id_unique (coffee : coffee_row) (l : list coffee_row) :
  NoDup (map c_id l) -> In coffee l ->
  filter (fun c => c_id c =? c_id coffee) l = [coffee].
Proof.
  intros Hpk Hin.
  pose proof (filter_by_key_length c_id (c_id coffee) l Hpk) as Hlen.
  assert (In coffee (filter (fun c => c_id c =? c_id coffee) l)) as Hf
    by (apply filter_In; split; [exact Hin|apply Z.eqb_refl]).
  destruct (filter (fun c => c_id c =? c_id coffee) l) as [|x [|y rest]];
    simpl in *; [destruct Hf | | lia].
  destruct Hf as [->|[]]. reflexivity.
Qed.

Lemma show_coffee_details_eq (format_2f : float -> string) (chat_id coffee_id : Z)
    (f : database) :
  Bot.show_coffee_details format_2f chat_id coffee_id f =
  (match filter (fun c => c_id c =? coffee_id) (coffee_rows f) with
   | [] => [request (send_message chat_id "Кава не знайдена!" None None)]
   | coffee :: _ =>
       match c_picture_url coffee with
       | Some url =>
           match Python.strip url with
           | EmptyString =>
               [request (send_message chat_id
                           (Bot.format_coffee_details format_2f coffee)
                           (Some (Bot.create_coffee_detail_markup coffee_id))
                           (Some "Markdown"%string))]
           | String _ _ =>
               [send_photo chat_id url (Bot.format_coffee_details format_2f coffee)
                           (Bot.create_coffee_detail_markup coffee_id) "Markdown"]
           end
       | None =>
           [request (send_message chat_id
                       (Bot.format_coffee_details format_2f coffee)
                       (Some (Bot.create_coffee_detail_markup coffee_id))
                       (Some "Markdown"%string))]
       end
   end, f).
Proof.
  unfold Bot.show_coffee_details.
  change CoffeeRepository.list_coffee with list_coffee. rewrite list_coffee_eq.
  destruct (filter (fun c => c_id c =? coffee_id) (coffee_rows f)) as [|coffee rest];
    [reflexivity|].
  destruct (c_picture_url coffee) as [url|]; [|reflexivity].
  destruct (Python.strip url); reflexivity.
Qed.

Lemma NoDup_map_injective {A B} (g : A -> B) (l : list A) :
  (forall a b, g a = g b -> a = b) -> NoDup l -> NoDup (map g l).
Proof.
  intros Hinj. induction 1 as [|a l Hnotin Hnd IH]; simpl; constructor; [|exact IH].
  intros Hin. apply in_map_iff in Hin as [b [E Hb]].
  apply Hinj in E. subst b. exact (Hnotin Hb).
Qed.

Lemma string_append_inj (p a b : string) : (p ++ a = p ++ b)%string -> a = b.
Proof.
  induction p as [|x p IH]; simpl; intros H; [exact H|].
  inversion H. auto.
Qed.

(** With the primary key of [coffees], the menu of [list_coffees] has one
    row of one button per coffee of the catalog, and no two buttons carry
    the same token. *)
Theorem catalog_menu_tokens_distinct (format_2f : float -> string) (f : database) :
  NoDup (map c_id (coffee_rows f)) ->
  let menu := Bot.create_coffee_list_markup format_2f (fst (list_coffee None f)) in
  List.length menu = List.length (coffee_rows f) /\
  Forall (fun row => List.length row = 1%nat) menu /\
  NoDup (map button_callback_data (List.concat menu)).
Proof.
  intros Hpk menu. unfold menu, Bot.create_coffee_list_markup.
  rewrite list_coffee_eq. cbn [fst].
  pose proof (order_by_name_perm (coffee_rows f)) as Hperm.
  split; [|split].
  - rewrite length_map. symmetry. apply Permutation_length. exact Hperm.
  - apply Forall_forall. intros row Hrow.
    apply in_map_iff in Hrow as [c [<- _]]. reflexivity.
  - assert (forall l,
              map button_callback_data
                (List.concat
                   (map (fun c => [mk_button (c_name c ++ " - $" ++ format_2f (c_price c))
                                             ("coffee_" ++ str (c_id c))]) l)) =
              map (fun id => ("coffee_" ++ str id)%string) (map c_id l)) as Htokens.
    { intros l. induction l as [|c l IH]; [reflexivity|].
      cbn [map List.concat app button_callback_data]. f_equal. exact IH. }
    rewrite Htokens.
    apply NoDup_map_injective.
    + intros a b E. apply string_append_inj in E. apply str_inj. exact E.
    + apply (Permutation_NoDup (Permutation_map c_id Hperm)). exact Hpk.
Qed.

Lemma catalog_menu_tokens_distinct_witness :
  NoDup (map c_id (coffee_rows sample_store)) /\
  List.length (Bot.create_coffee_list_markup (fun _ => "2.00"%string)
                 (fst (list_coffee None sample_store))) = 2%nat.
Proof.
  split; [exact (proj1 sample_store_primary_keys)|].
  exact (proj1 (catalog_menu_tokens_distinct (fun _ => "2.00"%string) sample_store
                  (proj1 sample_store_primary_keys))).
Defined.

(** ** The random recommendation *)

Lemma choice_in {A} (draw : nat) (first : A) (rest : list A) :
  In (Python.choice draw first rest) (first :: rest).
Proof.
  unfold Python.choice. apply nth_In.
  apply Nat.mod_upper_bound. simpl. discriminate.
Qed.

(** Whatever number is drawn, [recommend_coffee] only reads the store; with
    an empty catalog it sends the no-coffee message, and otherwise it shows
    the details of a coffee that is in the catalog, never the not-found
    message. *)
Theorem recommend_coffee_shows_catalog_entry (format_2f : float -> string)
    (draw : nat) (message : Message) (f : database) :
  let chat_id := message_chat_id message in
  snd (Bot.recommend_coffee format_2f draw message f) = f /\
  (coffee_rows f = [] ->
   fst (Bot.recommend_coffee format_2f draw message f) =
     [request (send_message chat_id "На жаль, у нас зараз немає жодної кави" None None)]) /\
  (coffee_rows f <> [] ->
   exists coffee,
     In coffee (coffee_rows f) /\
     fst (Bot.recommend_coffee format_2f draw message f) =
       fst (Bot.show_coffee_details format_2f chat_id (c_id coffee) f) /\
     fst (Bot.recommend_coffee format_2f draw message f) <>
       [request (send_message chat_id "Кава не знайдена!" None None)]).
Proof.
  intros chat_id. unfold Bot.recommend_coffee.
  change CoffeeRepository.list_coffee with list_coffee. rewrite list_coffee_eq.
  pose proof (order_by_name_perm (coffee_rows f)) as Hperm.
  destruct (order_by_name (coffee_rows f)) as [|first rest] eqn:E.
  - split; [reflexivity|]. split; [reflexivity|].
    intros Hne. exfalso. apply Hne.
    apply Permutation_sym, Permutation_nil in Hperm. exact Hperm.
  - fold chat_id. rewrite show_coffee_details_eq. cbn [fst snd].
    split; [reflexivity|]. split.
    + intros Hnil. rewrite Hnil in Hperm. apply Permutation_nil in Hperm. discriminate.
    + intros _.
      set (coffee := Python.choice draw first rest).
      assert (In coffee (coffee_rows f)) as Hin.
      { apply (Permutation_in _ (Permutation_sym Hperm)). apply choice_in. }
      exists coffee. split; [exact Hin|].
      split; [rewrite show_coffee_details_eq; reflexivity|].
      destruct (filter (fun c => c_id c =? c_id coffee) (coffee_rows f)) as [|c cs] eqn:Ef.
      * exfalso.
        pose proof (filter_nil_forall _ _ Ef coffee Hin) as Hf. cbn in Hf.
        rewrite Z.eqb_refl in Hf. discriminate.
      * destruct (c_picture_url c) as [url|]; [destruct (Python.strip url)|];
          intros H; discriminate H.
Qed.


(** ** Start-up: filling the catalog *)






Lemma startswith_inv (s prefix : string) :
  Python.startswith s prefix = true -> exists rest, s = (prefix ++ rest)%string.
Proof.
  unfold Python.startswith. revert s.
  induction prefix as [|a p IH]; intros s H.
  - exists s. reflexivity.
  - destruct s as [|b s]; simpl in H; [discriminate|].
    destruct (ascii_dec a b) as [->|]; [|discriminate].
    destruct (IH s H) as [rest ->]. exists rest. reflexivity.
Qed.

Lemma split_not_nil (sep : ascii) (s : string) : Python.split sep s <> [].
Proof.
  destruct s as [|a r]; simpl; [discriminate|].
  destruct (Ascii.eqb a sep); [discriminate|].
  destruct (Python.split sep r); discriminate.
Qed.

(** ** What [add_to_cart] and [add_coffee] never do *)

(** [add_to_cart] never removes or reorders cart rows and never changes the
    user or coffee of a row: the (user, coffee) pairs after the call are those
    before it, followed by the new pair when the coffee exists and the pair
    had no row.  The count is not validated: adding [n] and then [-n] to a
    new pair leaves its row in the cart with count 0. *)
Lemma add_to_cart_keeps_rows now (u c n : Z) (f : database) :
  map cart_key (cart_rows (snd (add_to_cart now u c n f))) =
    map cart_key (cart_rows f) ++
    (if coffee_exists c f && negb (existsb (is_cart_row_of u c) (cart_rows f))
     then [(u, c)] else []) /\
  (coffee_exists c f = true ->
   NoDup (map ci_id (cart_rows f)) ->
   existsb (is_cart_row_of u c) (cart_rows f) = false ->
   forall now', exists id,
     cart_rows (snd (add_to_cart now' u c (- n) (snd (add_to_cart now u c n f)))) =
     cart_rows f ++ [mk_cart_item id u c 0 now]).
Proof.
  split.
  - destruct f as [t|]; [|reflexivity]. rewrite add_to_cart_Some.
    unfold coffee_exists. cbn [coffee_rows cart_rows].
    destruct (filter (fun x => c_id x =? c) (coffees t)) as [|x xs] eqn:Ex.
    + rewrite (filter_nil_existsb _ _ Ex). cbn. rewrite app_nil_r. reflexivity.
    + assert (existsb (fun x => c_id x =? c) (coffees t) = true) as ->.
      { destruct (existsb (fun x => c_id x =? c) (coffees t)) eqn:E; [reflexivity|].
        apply existsb_false_filter in E. congruence. }
      destruct (filter (is_cart_row_of u c) (cart_items t)) as [|existing rest] eqn:E.
      * rewrite (filter_nil_existsb _ _ E). cbn. rewrite map_app. reflexivity.
      * assert (existsb (is_cart_row_of u c) (cart_items t) = true) as ->.
        { destruct (existsb (is_cart_row_of u c) (cart_items t)) eqn:E'; [reflexivity|].
          apply existsb_false_filter in E'. congruence. }
        cbn. rewrite app_nil_r. apply update_count_map. intros ci. reflexivity.
  - intros Hex Hpk Hnone now'.
    destruct (add_to_cart_twice now now' u c n (- n) f Hex Hpk
                (existsb_false_filter _ _ Hnone)) as [id Hcart].
    exists id. rewrite Hcart. rewrite Z.add_opp_diag_r. reflexivity.
Qed.

(** In a store reached through the repository, the id of a deleted coffee is
    not issued again: [add_coffee] after [delete_coffee(id)] returns a
    larger id. *)
Lemma deleted_id_not_reused now (name : string) (d p : option string)
    (price : float) (id : Z) (f : database) :
  reachable f ->
  coffee_exists id f = true ->
  id < fst (add_coffee now name d p price (snd (delete_coffee id f))).
Proof.
  intros Hr Hex. apply reachable_coffee_ids_issued in Hr.
  destruct f as [t|]; [|discriminate]. cbn in Hr. destruct Hr as [Hc _].
  unfold coffee_exists in Hex. cbn in Hex.
  apply existsb_exists in Hex as [c [Hin E]]. apply Z.eqb_eq in E.
  specialize (Hc c Hin).
  rewrite delete_coffee_Some. cbn [snd]. rewrite add_coffee_Some. cbn [fst coffees_seq].
  pose proof (next_rowid_above (coffees_seq t)
                (map c_id (filter (fun c0 => negb (c_id c0 =? id)) (coffees t)))).
  cbn zeta. cbn [fst coffees]. lia.
Qed.


(** * Calls from Python *)

(** ** The methods as Python calls them, by cases *)

Ltac call_simpl :=
  cbn [working committed foreign_keys forallb andb fst snd fetchone hd_error].

Ltac call_cases :=
  unfold Call.initialize, Call.add_coffee, Call.update_coffee, Call.delete_coffee,
    Call.list_coffee, Call.add_to_cart, Call.clear_cart, Call.get_cart_items,
    call_method, and_then, execute, perform, value, _connect, _disconnect;
  cbn [working committed foreign_keys forallb andb fst snd].

Lemma int64_spec (z : Z) : int64 z = true <-> - 2 ^ 63 <= z <= 2 ^ 63 - 1.
Proof.
  unfold int64, min_int64, max_int64.
  rewrite andb_true_iff, !Z.leb_le. reflexivity.
Qed.


Lemma call_without_tables now (id u c n : Z) (name : string)
    (d p : option string) (price : float) (some_id some_user : option Z) :
  Call.add_coffee now name d p price None = (Returns (-1), None) /\
  Call.update_coffee now id name d p price None = (Returns false, None) /\
  Call.delete_coffee id None = (Returns false, None) /\
  Call.list_coffee some_id None = (Returns [], None) /\
  Call.add_to_cart now u c n None = (Returns false, None) /\
  Call.clear_cart some_user None = (Returns false, None) /\
  Call.get_cart_items some_user None = (Returns [], None).
Proof. destruct some_id, some_user; repeat split; reflexivity. Qed.



Lemma call_delete_coffee_eq (id : Z) (t : tables) :
  Call.delete_coffee id (Some t) =
  if int64 id
  then (Returns (fst (delete_coffee id (Some t))), snd (delete_coffee id (Some t)))
  else (Raises OverflowError, Some t).
Proof. call_cases. destruct (int64 id); reflexivity. Qed.

Lemma call_list_coffee_eq (coffee_id : option Z) (t : tables) :
  Call.list_coffee coffee_id (Some t) =
  match coffee_id with
  | Some id =>
      if int64 id
      then (Returns (filter (fun c => c_id c =? id) (coffees t)), Some t)
      else (Raises OverflowError, Some t)
  | None => (Returns (order_by_name (coffees t)), Some t)
  end.
Proof.
  call_cases. destruct coffee_id as [id|]; [|reflexivity].
  cbn [forallb andb]. destruct (int64 id); reflexivity.
Qed.

Lemma call_clear_cart_eq (user_id : option Z) (t : tables) :
  Call.clear_cart user_id (Some t) =
  match user_id with
  | Some u =>
      if int64 u
      then (Returns true, snd (clear_cart (Some u) (Some t)))
      else (Raises OverflowError, Some t)
  | None => (Returns true, snd (clear_cart None (Some t)))
  end.
Proof.
  call_cases. destruct user_id as [u|]; [|reflexivity].
  cbn [forallb andb]. destruct (int64 u); reflexivity.
Qed.

Lemma call_get_cart_items_eq (user_id : option Z) (t : tables) :
  Call.get_cart_items user_id (Some t) =
  match user_id with
  | Some u =>
      if int64 u
      then (Returns (map fetched (fst (get_cart_items (Some u) (Some t)))), Some t)
      else (Raises OverflowError, Some t)
  | None => (Returns (map fetched (fst (get_cart_items None (Some t)))), Some t)
  end.
Proof.
  call_cases. destruct user_id as [u|]; [|reflexivity].
  cbn [forallb andb]. destruct (int64 u); reflexivity.
Qed.

Lemma call_add_to_cart_eq now (u c n : Z) (t : tables) :
  Call.add_to_cart now u c n (Some t) =
  if int64 c then
    match filter (fun x => c_id x =? c) (coffees t) with
    | [] => (Returns false, Some t)
    | _ :: _ =>
        if int64 u then
          match filter (is_cart_row_of u c) (cart_items t) with
          | existing_item :: _ =>
              if int64 (ci_count existing_item + n) && int64 (ci_id existing_item)
              then (Returns true, snd (add_to_cart now u c n (Some t)))
              else (Raises OverflowError, Some t)
          | [] =>
              if int64 n then
                if cart_items_room (Some t)
                then (Returns true, snd (add_to_cart now u c n (Some t)))
                else (Returns false, Some t)
              else (Raises OverflowError, Some t)
          end
        else (Raises OverflowError, Some t)
    end
  else (Raises OverflowError, Some t).
Proof.
  rewrite add_to_cart_Some.
  unfold Call.add_to_cart, call_method, and_then, execute, perform, value,
    _connect, _disconnect, select_coffees_by_id, select_cart_items,
    insert_into_cart_items, cart_items_room, bind, read_tables, raise, ret.
  change (fun ci => (ci_user_id ci =? u) && (ci_coffee_id ci =? c))
    with (is_cart_row_of u c).
  call_simpl.
  destruct (int64 c); call_simpl; [|reflexivity].
  destruct (filter (fun x => c_id x =? c) (coffees t)) as [|x xs];
    call_simpl; [reflexivity|].
  destruct (int64 u); call_simpl; [|reflexivity].
  destruct (filter (is_cart_row_of u c) (cart_items t)) as [|e es]; call_simpl.
  - destruct (int64 n); call_simpl; [|reflexivity].
    rewrite Z.ltb_antisym.
    destruct (next_rowid (cart_items_seq t) (map ci_id (cart_items t)) <=? max_int64);
      reflexivity.
  - destruct (int64 (ci_count e + n)); call_simpl; [|reflexivity].
    destruct (int64 (ci_id e)); reflexivity.
Qed.

Lemma coffee_exists_int64 (c : Z) (f : database) :
  int64_store f = true -> coffee_exists c f = true -> int64 c = true.
Proof.
  unfold int64_store, coffee_exists. intros Hs Hex.
  apply andb_true_iff in Hs as [Hc _].
  apply existsb_exists in Hex as [x [Hx E]]. apply Z.eqb_eq in E. subst c.
  rewrite forallb_forall in Hc. exact (Hc x Hx).
Qed.

(** ** Adding to the cart: unknown coffee *)




(** ** Updating an unknown coffee *)




(** ** Listing the catalog *)




(** ** Adding to the cart: the upsert *)

Lemma int64_store_cart_row (f : database) (ci : cart_row) :
  int64_store f = true -> In ci (cart_rows f) -> int64 (ci_id ci) = true.
Proof.
  unfold int64_store. intros Hs Hin. apply andb_true_iff in Hs as [_ Hs].
  rewrite forallb_forall in Hs. specialize (Hs ci Hin).
  unfold int64_cart_row in Hs. rewrite !andb_true_iff in Hs. tauto.
Qed.

Lemma next_rowid_int64 (seq : Z) (ids : list Z) :
  (next_rowid seq ids <=? max_int64) = true -> int64 (next_rowid seq ids) = true.
Proof.
  intros H. apply Z.leb_le in H. apply int64_spec.
  pose proof (max_rowid_nonneg ids). unfold next_rowid, max_int64 in *. lia.
Qed.

(** With a row for the pair and a new count of 64 bits, the call does what
    the method does on the stored integers. *)
Lemma call_add_to_cart_existing now (u c n : Z) (t : tables)
    (before after : list cart_row) (existing : cart_row) :
  coffee_exists c (Some t) = true ->
  int64 c = true -> int64 u = true ->
  cart_items t = before ++ existing :: after ->
  filter (is_cart_row_of u c) before = [] ->
  is_cart_row_of u c existing = true ->
  int64 (ci_count existing + n) = true ->
  int64 (ci_id existing) = true ->
  Call.add_to_cart now u c n (Some t) =
    (Returns true, snd (add_to_cart now u c n (Some t))).
Proof.
  intros Hex Hc Hu Hcart Hbefore Hrow Hsum Hid.
  destruct (coffee_exists_Some _ _ Hex) as [t' [x [xs [Heq Hx]]]].
  injection Heq as <-.
  assert (filter (is_cart_row_of u c) (cart_items t) =
          existing :: filter (is_cart_row_of u c) after) as Hfilter.
  { rewrite Hcart, filter_app, Hbefore. simpl. rewrite Hrow. reflexivity. }
  rewrite call_add_to_cart_eq, Hc, Hx, Hu, Hfilter, Hsum, Hid. reflexivity.
Qed.

(** Without a row for the pair, with a count of 64 bits and a rowid left, the
    call appends the row under the next rowid. *)
Lemma call_add_to_cart_new now (u c n : Z) (t : tables) :
  coffee_exists c (Some t) = true ->
  int64 c = true -> int64 u = true -> int64 n = true ->
  cart_items_room (Some t) = true ->
  filter (is_cart_row_of u c) (cart_items t) = [] ->
  Call.add_to_cart now u c n (Some t) =
    (Returns true,
     Some (mk_tables (coffees t) (coffees_seq t)
             (cart_items t ++
              [mk_cart_item (next_rowid (cart_items_seq t) (map ci_id (cart_items t)))
                            u c n now])
             (next_rowid (cart_items_seq t) (map ci_id (cart_items t))))).
Proof.
  intros Hex Hc Hu Hn Hroom Hnone.
  destruct (coffee_exists_Some _ _ Hex) as [t' [x [xs [Heq Hx]]]].
  injection Heq as <-.
  rewrite call_add_to_cart_eq, Hc, Hx, Hu, Hnone, Hn, Hroom.
  rewrite add_to_cart_Some, Hx, Hnone. reflexivity.
Qed.

(** C2, as stated, fails on the code: user 42 holds 2^63 - 1 of coffee 2 (a
    store reached by calls of the methods); one more [add_to_cart(42, 2, 1)]
    does not increment the count but raises [OverflowError], and the row
    keeps its count. *)
Lemma add_to_cart_increment_raises :
  call_all (sample_history ++ [AddToCart "2024-01-01 10:07:00" 42 2 max_int64])
           empty_store = full_count_store /\
  coffee_exists 2 full_count_store = true /\
  map ci_count (filter (is_cart_row_of 42 2) (cart_rows full_count_store)) =
    [2 ^ 63 - 1] /\
  Call.add_to_cart "2024-01-01 11:00:00" 42 2 1 full_count_store =
    (Raises OverflowError, full_count_store).
Proof.
  split; [vm_compute; reflexivity|].
  split; [reflexivity|]. split; [reflexivity|].
  vm_compute. reflexivity.
Qed.

(** C2, amended: in a store of integers of 64 bits, for a user id of 64 bits
    and a coffee of the catalog, [add_to_cart(u, c, n)] is an upsert as long
    as SQLite can hold its integers.  If a row of (u, c) exists and its count
    plus [n] is an integer of 64 bits, the call returns [True] and adds [n]
    to the count of that row, every other row and the catalog staying as they
    are.  If no row exists, [n] is an integer of 64 bits and the rowids of
    the cart are not used up, the call returns [True] and appends one row of
    (u, c) with count [n] under a new id.  Adding 2 and then 3 to a cart
    without a row of (u, c) leaves exactly one row of (u, c), with count 5. *)
Theorem call_add_to_cart_upsert now (u c n : Z) (f : database) :
  coffee_exists c f = true ->
  primary_keys f ->
  int64_store f = true ->
  int64 u = true ->
  (forall before existing after,
     cart_rows f = before ++ existing :: after ->
     filter (is_cart_row_of u c) before = [] ->
     is_cart_row_of u c existing = true ->
     int64 (ci_count existing + n) = true ->
     fst (Call.add_to_cart now u c n f) = Returns true /\
     coffee_rows (snd (Call.add_to_cart now u c n f)) = coffee_rows f /\
     cart_rows (snd (Call.add_to_cart now u c n f)) =
       before ++ with_count existing (ci_count existing + n) :: after) /\
  (filter (is_cart_row_of u c) (cart_rows f) = [] ->
   int64 n = true ->
   cart_items_room f = true ->
     exists id,
       ~ In id (map ci_id (cart_rows f)) /\
       fst (Call.add_to_cart now u c n f) = Returns true /\
       coffee_rows (snd (Call.add_to_cart now u c n f)) = coffee_rows f /\
       cart_rows (snd (Call.add_to_cart now u c n f)) =
         cart_rows f ++ [mk_cart_item id u c n now]) /\
  (filter (is_cart_row_of u c) (cart_rows f) = [] ->
   cart_items_room f = true ->
     forall now', exists id,
       fst (Call.add_to_cart now u c 2 f) = Returns true /\
       fst (Call.add_to_cart now' u c 3 (snd (Call.add_to_cart now u c 2 f))) =
         Returns true /\
       filter (is_cart_row_of u c)
         (cart_rows (snd (Call.add_to_cart now' u c 3
                            (snd (Call.add_to_cart now u c 2 f))))) =
         [mk_cart_item id u c 5 now]).
Proof.
  intros Hex [_ Hpk] Hstore Hu.
  pose proof (coffee_exists_int64 c f Hstore Hex) as Hc.
  destruct (coffee_exists_Some _ _ Hex) as [t [x [xs [Hf Hx]]]]. subst f.
  split; [|split].
  - intros before existing after Hcart Hbefore Hrow Hsum.
    assert (int64 (ci_id existing) = true) as Hid.
    { apply (int64_store_cart_row (Some t)); [exact Hstore|].
      rewrite Hcart. apply in_or_app. right. left. reflexivity. }
    rewrite (call_add_to_cart_existing now u c n t before after existing
               Hex Hc Hu Hcart Hbefore Hrow Hsum Hid).
    cbn [fst snd].
    destruct (add_to_cart_existing now u c n (Some t) before after existing
                Hex Hpk Hcart Hbefore Hrow) as [_ [Hcof Hrows]].
    split; [reflexivity|]. split; assumption.
  - intros Hnone Hn Hroom. cbn in Hnone.
    rewrite (call_add_to_cart_new now u c n t Hex Hc Hu Hn Hroom Hnone).
    exists (next_rowid (cart_items_seq t) (map ci_id (cart_items t))).
    split; [apply next_rowid_fresh|]. repeat split.
  - intros Hnone Hroom now'. cbn in Hnone.
    set (id := next_rowid (cart_items_seq t) (map ci_id (cart_items t))).
    exists id.
    rewrite (call_add_to_cart_new now u c 2 t Hex Hc Hu eq_refl Hroom Hnone).
    fold id. cbn [fst snd].
    set (t1 := mk_tables (coffees t) (coffees_seq t)
                 (cart_items t ++ [mk_cart_item id u c 2 now]) id).
    assert (is_cart_row_of u c (mk_cart_item id u c 2 now) = true) as Hrow
      by (unfold is_cart_row_of; cbn; rewrite !Z.eqb_refl; reflexivity).
    assert (int64 id = true) as Hid
      by (apply next_rowid_int64; exact Hroom).
    assert (NoDup (map ci_id (cart_rows (Some t1)))) as Hpk1.
    { cbn. rewrite map_app. apply NoDup_snoc; [exact Hpk|]. apply next_rowid_fresh. }
    rewrite (call_add_to_cart_existing now' u c 3 t1 (cart_items t) []
               (mk_cart_item id u c 2 now) Hex Hc Hu eq_refl Hnone Hrow eq_refl Hid).
    cbn [fst snd].
    destruct (add_to_cart_existing now' u c 3 (Some t1) (cart_items t) []
                (mk_cart_item id u c 2 now) Hex Hpk1 eq_refl Hnone Hrow)
      as [_ [_ Hrows]].
    split; [reflexivity|]. split; [reflexivity|].
    rewrite Hrows, filter_app, Hnone. cbn.
    unfold is_cart_row_of; cbn. rewrite !Z.eqb_refl. reflexivity.
Qed.

Lemma call_add_to_cart_upsert_witness :
  coffee_exists 1 sample_store = true /\
  primary_keys sample_store /\
  int64_store sample_store = true /\
  int64 42 = true /\
  fst (Call.add_to_cart "2024-01-01 11:00:00" 42 1 3 sample_store) = Returns true /\
  map ci_count
    (filter (is_cart_row_of 42 1)
       (cart_rows (snd (Call.add_to_cart "2024-01-01 11:00:00" 42 1 3 sample_store)))) =
    [5].
Proof.
  split; [reflexivity|]. split; [exact sample_store_primary_keys|].
  split; [reflexivity|]. split; [reflexivity|].
  destruct (call_add_to_cart_upsert "2024-01-01 11:00:00" 42 1 3 sample_store
              eq_refl sample_store_primary_keys eq_refl eq_refl) as [Hexisting _].
  destruct (Hexisting []
              (mk_cart_item 1 42 1 2 "2024-01-01 10:05:00")
              [mk_cart_item 2 7 2 1 "2024-01-01 10:06:00"]
              eq_refl eq_refl eq_refl eq_refl) as [Hret [_ Hrows]].
  split; [exact Hret|]. rewrite Hrows. reflexivity.
Defined.

(** ** The totals of the cart *)

Lemma call_get_cart_items_int64 (u : Z) (f : database) :
  int64 u = true ->
  Call.get_cart_items (Some u) f =
    (Returns (map fetched (fst (get_cart_items (Some u) f))), f).
Proof.
  intros Hu. destruct f as [t|]; [|reflexivity].
  rewrite call_get_cart_items_eq, Hu. reflexivity.
Qed.

Lemma call_get_cart_items_all (f : database) :
  Call.get_cart_items None f =
    (Returns (map fetched (fst (get_cart_items None f))), f).
Proof.
  destruct f as [t|]; [|reflexivity].
  rewrite call_get_cart_items_eq. reflexivity.
Qed.

(** The loop of [view_cart] from any text and sum: with every [total_price]
    a number, it appends one line per item and adds the totals up. *)
Lemma view_cart_loop_from (format_2f : float -> string) (items : list item) :
  forall (totals : list float) (text : string) (sum : float),
  map item_total_price items = map Some totals ->
  fold_left
    (fun state it =>
       match state with
       | None => None
       | Some (cart_text, total_price) =>
           match Event.format_cart_item format_2f it, item_total_price it with
           | Some line, Some item_total =>
               Some ((cart_text ++ line ++ newline)%string,
                     PrimFloat.add total_price item_total)
           | _, _ => None
           end
       end)
    items (Some (text, sum)) =
  Some ((text ++
         fold_right
           (fun line rest =>
              ("• " ++ item_name (fst line) ++ " - " ++ str (item_count (fst line))
               ++ " x $" ++ format_2f (item_price (fst line))
               ++ " = $" ++ format_2f (snd line) ++ newline ++ rest)%string)
           ""%string (combine items totals))%string,
        fold_left PrimFloat.add totals sum).
Proof.
  induction items as [|it items IH]; intros totals text sum Hmap.
  - destruct totals; [|discriminate]. cbn. rewrite string_append_nil_r. reflexivity.
  - destruct totals as [|total totals]; [discriminate|].
    cbn [map] in Hmap. injection Hmap as Htotal Hrest.
    cbn [fold_left combine fold_right fst snd].
    match goal with
    | |- fold_left ?step _ ?state = _ =>
        replace state with
          (Some ((text ++ "• " ++ item_name it ++ " - " ++ str (item_count it)
                  ++ " x $" ++ format_2f (item_price it)
                  ++ " = $" ++ format_2f total ++ newline)%string,
                 PrimFloat.add sum total))
    end.
    + rewrite (IH totals _ _ Hrest). f_equal. f_equal.
      rewrite !string_append_assoc. reflexivity.
    + unfold Event.format_cart_item. rewrite Htotal.
      rewrite !string_append_assoc. reflexivity.
Qed.

(** An item without [total_price] stops the loop with [TypeError]. *)
Lemma view_cart_loop_type_error (format_2f : float -> string) (items : list item) :
  In None (map item_total_price items) ->
  Event.view_cart_loop format_2f items = None.
Proof.
  unfold Event.view_cart_loop.
  generalize (Some (("🛒 *Ваш кошик*" ++ newline ++ newline)%string, 0%float)).
  induction items as [|it items IH]; intros state Hin; [destruct Hin|].
  cbn [fold_left]. cbn [map] in Hin.
  destruct (item_total_price it) as [total|] eqn:Htotal.
  - destruct Hin as [Hin|Hin]; [discriminate|]. apply IH. exact Hin.
  - unfold Event.format_cart_item. rewrite Htotal.
    assert (forall l : list item,
              fold_left
                (fun state it0 =>
                   match state with
                   | None => None
                   | Some (cart_text, total_price) =>
                       match Event.format_cart_item format_2f it0, item_total_price it0 with
                       | Some line, Some item_total =>
                           Some ((cart_text ++ line ++ newline)%string,
                                 PrimFloat.add total_price item_total)
                       | _, _ => None
                       end
                   end) l None = None) as Hnone
      by (induction l; [reflexivity|assumption]).
    destruct state as [[text sum]|]; apply Hnone.
Qed.

(** What [view_cart] answers, by the items of the user. *)
Lemma view_cart_eq (format_2f : float -> string) (message : Message) (f : database) :
  int64 (message_from_user_id message) = true ->
  Event.view_cart format_2f message f =
  (match map fetched (fst (get_cart_items (Some (message_from_user_id message)) f)) with
   | [] => Done [request (send_message (message_chat_id message)
                            "Ваш кошик порожній" None None)]
   | cart_items =>
       match Event.view_cart_loop format_2f cart_items with
       | None => Failed TypeError
       | Some (cart_text, total_price) =>
           Done [request (send_message (message_chat_id message)
                   (cart_text ++ newline ++ "*Усього: $" ++ format_2f total_price ++ "*")
                   (Some [[mk_button "Оформити замовлення" "checkout"]])
                   (Some "Markdown"%string))]
       end
   end, f).
Proof.
  intros Hu. unfold Event.view_cart.
  rewrite (call_get_cart_items_int64 _ f Hu).
  destruct (map fetched (fst (get_cart_items (Some (message_from_user_id message)) f)))
    as [|it items]; [reflexivity|].
  destruct (Event.view_cart_loop format_2f (it :: items)) as [[text sum]|]; reflexivity.
Qed.

(** C7, as stated, fails on the code: in a store reached by calls of the
    methods, user 42 holds none of a coffee of infinite price; the product
    of price and count is not a number, SQLite gives NULL for it, the line
    has no [total_price], and [view_cart] renders no grand total: it stops
    with [TypeError]. *)
Lemma cart_total_missing :
  call_all unpriced_history empty_store = unpriced_store /\
  (exists it,
     In it (match fst (Call.get_cart_items (Some 42) unpriced_store) with
            | Returns items => items
            | Raises _ => []
            end) /\
     item_price it = infinity /\ item_count it = 0 /\
     item_total_price it = None) /\
  (forall format_2f,
     Event.view_cart format_2f (mk_message 100 1 42 "🛒 Кошик") unpriced_store =
       (Failed TypeError, unpriced_store)).
Proof.
  split; [vm_compute; reflexivity|]. split.
  - exists (mk_item None 3 "Kopi" None None infinity 0 None).
    split; [|repeat split].
    vm_compute. right. left. reflexivity.
  - intros format_2f. rewrite view_cart_eq by reflexivity.
    assert (map fetched (fst (get_cart_items (Some 42) unpriced_store)) =
            [mk_item None 1 "Latte" (Some "Milk coffee"%string) None 3.5%float 2
                     (Some 7%float);
             mk_item None 3 "Kopi" None None infinity 0 None]) as Hitems
      by (vm_compute; reflexivity).
    cbn [message_from_user_id]. rewrite Hitems.
    rewrite view_cart_loop_type_error; [reflexivity|].
    cbn. right. left. reflexivity.
Qed.

(** C7, amended: for a user id of 64 bits and every store, [get_cart_items(u)]
    returns the store unchanged and one line per cart row of the user and
    coffee row it references; the [total_price] of a line is the price of
    that coffee multiplied by the count of the row when this product is a
    number, and is missing (NULL) when it is not.  When every line has its
    [total_price], the cart view of a cart with lines ends in the grand
    total, which is the sum of the [total_price] of the lines, from 0 in
    their order. *)
Theorem call_cart_totals (format_2f : float -> string) (message : Message)
    (f : database) :
  int64 (message_from_user_id message) = true ->
  exists items,
    Call.get_cart_items (Some (message_from_user_id message)) f = (Returns items, f) /\
    Forall
      (fun it =>
         item_total_price it =
           real_or_null (PrimFloat.mul (item_price it) (float_of_Z (item_count it))) /\
         exists ci c,
           In ci (cart_rows f) /\ ci_user_id ci = message_from_user_id message /\
           In c (coffee_rows f) /\ c_id c = ci_coffee_id ci /\
           item_coffee_id it = c_id c /\ item_price it = c_price c /\
           item_count it = ci_count ci)
      items /\
    (forall totals,
       items <> [] ->
       map item_total_price items = map Some totals ->
       exists cart_text,
         Event.view_cart format_2f message f =
           (Done [request
                    (send_message (message_chat_id message)
                       (cart_text ++ newline ++ "*Усього: $"
                        ++ format_2f (fold_left PrimFloat.add totals 0%float) ++ "*")
                       (Some [[mk_button "Оформити замовлення" "checkout"]])
                       (Some "Markdown"%string))], f)).
Proof.
  intros Hu.
  exists (map fetched (fst (get_cart_items (Some (message_from_user_id message)) f))).
  split; [apply call_get_cart_items_int64; exact Hu|]. split.
  - apply Forall_forall. intros it Hit.
    apply in_map_iff in Hit as [l [<- Hl]].
    apply in_get_cart_items in Hl as [ci [c [Hci [Hc [E [Huser ->]]]]]].
    split; [reflexivity|].
    exists ci, c. cbn. repeat split; auto.
  - intros totals Hitems Htotals.
    rewrite view_cart_eq by exact Hu.
    destruct (map fetched (fst (get_cart_items (Some (message_from_user_id message)) f)))
      as [|it items] eqn:E; [contradiction|].
    unfold Event.view_cart_loop.
    rewrite (view_cart_loop_from format_2f (it :: items) totals _ _ Htotals).
    eexists. reflexivity.
Qed.

Lemma call_cart_totals_witness :
  int64 42 = true /\
  exists items,
    Call.get_cart_items (Some 42) sample_store = (Returns items, sample_store) /\
    map item_total_price items = [Some 7%float].
Proof.
  split; [reflexivity|].
  destruct (call_cart_totals (fun _ => ""%string) (mk_message 100 1 42 "🛒 Кошик")
              sample_store eq_refl) as [items [Hget _]].
  exists items. split; [exact Hget|].
  assert (Returns items = fst (Call.get_cart_items (Some 42) sample_store)) as Hitems
    by (cbn [message_from_user_id] in Hget; rewrite Hget; reflexivity).
  vm_compute in Hitems. injection Hitems as ->. reflexivity.
Defined.

(** * The catalog through calls *)

Lemma call_list_coffee_int64 (id : Z) (f : database) :
  int64 id = true ->
  Call.list_coffee (Some id) f =
    (Returns (filter (fun c => c_id c =? id) (coffee_rows f)), f).
Proof.
  intros Hid. destruct f as [t|]; [|reflexivity].
  rewrite call_list_coffee_eq, Hid. reflexivity.
Qed.

(** Two initialised stores answer [list_coffee(id)] alike when they hold the
    same rows of that id; an id outside 64 bits raises in both. *)
Lemma call_list_coffee_same (id : Z) (t t' : tables) :
  filter (fun c => c_id c =? id) (coffees t') =
    filter (fun c => c_id c =? id) (coffees t) ->
  fst (Call.list_coffee (Some id) (Some t')) =
    fst (Call.list_coffee (Some id) (Some t)).
Proof.
  intros H. rewrite !call_list_coffee_eq.
  destruct (int64 id); cbn [fst]; [rewrite H|]; reflexivity.
Qed.


(** ** Adding a coffee *)



(** ** Updating a coffee *)



(** ** Deleting a coffee *)

(** [delete_coffee(id)] with an id of 64 bits returns whether a coffee
    row had that id and removes exactly the rows of that id from the catalog:
    afterwards no coffee has the id, every other id is listed as before, and
    the cart rows are all kept.  With an id outside 64 bits, on an
    initialised store, the call raises [OverflowError] and changes
    nothing. *)
Theorem call_delete_coffee_result (id : Z) (f : database) :
  (int64 id = true ->
   exists f',
     Call.delete_coffee id f = (Returns (coffee_exists id f), f') /\
     coffee_rows f' = filter (fun c => negb (c_id c =? id)) (coffee_rows f) /\
     coffee_exists id f' = false /\
     (forall id', id' <> id ->
        fst (Call.list_coffee (Some id') f') = fst (Call.list_coffee (Some id') f)) /\
     cart_rows f' = cart_rows f) /\
  (int64 id = false -> initialized f ->
   Call.delete_coffee id f = (Raises OverflowError, f)).
Proof.
  split.
  - intros Hid.
    pose proof (delete_coffee_result id f) as Hold. cbv zeta in Hold.
    destruct Hold as [Hret [Hrows [Hgone [Hothers Hcart]]]].
    destruct f as [t|].
    + rewrite call_delete_coffee_eq, Hid, Hret.
      eexists. split; [reflexivity|].
      split; [exact Hrows|]. split; [exact Hgone|]. split; [|exact Hcart].
      intros id' Hne. specialize (Hothers id' Hne).
      rewrite !list_coffee_by_id in Hothers.
      rewrite delete_coffee_Some in *. cbn [snd] in *.
      apply call_list_coffee_same. exact Hothers.
    + exists None. repeat split.
  - intros Hid Hinit. destruct f as [t|]; [|contradiction Hinit; reflexivity].
    rewrite call_delete_coffee_eq, Hid. reflexivity.
Qed.

(** ** Histories of calls *)






(** ** Reading the cart through calls *)

Lemma call_get_cart_items_same (user_id : option Z) (t t' : tables) :
  fst (get_cart_items user_id (Some t')) = fst (get_cart_items user_id (Some t)) ->
  fst (Call.get_cart_items user_id (Some t')) =
    fst (Call.get_cart_items user_id (Some t)).
Proof.
  intros H. rewrite !call_get_cart_items_eq.
  destruct user_id as [u|]; [destruct (int64 u)|]; cbn [fst];
    [rewrite H| |rewrite H]; reflexivity.
Qed.

Lemma filter_fetched (id : Z) (lines : list cart_line) :
  filter (fun it => negb (item_coffee_id it =? id)) (map fetched lines) =
  map fetched (filter (fun l => negb (l_coffee_id l =? id)) lines).
Proof.
  induction lines as [|l lines IH]; simpl; [reflexivity|].
  destruct (negb (l_coffee_id l =? id)); simpl; rewrite IH; reflexivity.
Qed.

Lemma fetched_of_user (u : Z) (lines : list cart_line) :
  map fetched
    (map without_user
       (filter (fun l => match l_user_id l with Some v => v =? u | None => false end)
               lines)) =
  map item_without_user
    (filter (fun it => match item_user_id it with Some v => v =? u | None => false end)
            (map fetched lines)).
Proof.
  induction lines as [|l lines IH]; simpl; [reflexivity|].
  destruct (l_user_id l) as [v|]; [destruct (v =? u)|]; simpl; rewrite IH; reflexivity.
Qed.





(** After [delete_coffee(id)] with an id of 64 bits, [get_cart_items]
    returns, for every user and for all users, the lines it returned before
    without those of the deleted coffee (a call that raised before raises the
    same again), and [add_to_cart] of that id returns [False] and changes
    nothing for every user and count. *)
Theorem call_delete_coffee_hides_lines (id : Z) (f : database) :
  int64 id = true ->
  let f' := snd (Call.delete_coffee id f) in
  (forall user_id items,
     fst (Call.get_cart_items user_id f) = Returns items ->
     fst (Call.get_cart_items user_id f') =
       Returns (filter (fun it => negb (item_coffee_id it =? id)) items)) /\
  (forall user_id e,
     fst (Call.get_cart_items user_id f) = Raises e ->
     fst (Call.get_cart_items user_id f') = Raises e) /\
  (forall now u n, Call.add_to_cart now u id n f' = (Returns false, f')).
Proof.
  intros Hid f'. subst f'.
  destruct (delete_coffee_hides_lines id f) as [Hlines _].
  pose proof (delete_coffee_then_list id f) as Hgone.
  destruct f as [t|].
  - rewrite call_delete_coffee_eq, Hid. cbn [snd].
    rewrite list_coffee_by_id in Hgone.
    rewrite delete_coffee_Some in *. cbn [snd] in *.
    split; [|split].
    + intros user_id items. specialize (Hlines user_id).
      rewrite !call_get_cart_items_eq.
      destruct user_id as [u|]; [destruct (int64 u); [|discriminate]|];
        cbn [fst]; intros Heq; injection Heq as <-;
        rewrite Hlines, filter_fetched; reflexivity.
    + intros user_id e. rewrite !call_get_cart_items_eq.
      destruct user_id as [u|]; [destruct (int64 u)|]; cbn [fst];
        intros Heq; try discriminate; exact Heq.
    + intros now u n. rewrite call_add_to_cart_eq, Hid. cbn [coffees].
      cbn [coffee_rows coffees] in Hgone. rewrite Hgone. reflexivity.
  - split; [|split].
    + intros user_id items Heq.
      assert (items = []) as ->
        by (destruct user_id; cbn in Heq; injection Heq as <-; reflexivity).
      destruct user_id; reflexivity.
    + intros user_id e Heq. exact Heq.
    + intros now u n. reflexivity.
Qed.

Lemma call_delete_coffee_hides_lines_witness :
  int64 1 = true /\
  fst (Call.get_cart_items (Some 42) (snd (Call.delete_coffee 1 sample_store))) =
    Returns [] /\
  cart_rows (snd (Call.delete_coffee 1 sample_store)) = cart_rows sample_store.
Proof.
  split; [reflexivity|].
  destruct (call_delete_coffee_hides_lines 1 sample_store eq_refl) as [Hlines _].
  split; [|reflexivity].
  rewrite (Hlines (Some 42) _ eq_refl). reflexivity.
Defined.

(** After [clear_cart(u)] with a user id of 64 bits, [get_cart_items(u)]
    returns no line, and every other user's call of [get_cart_items] ends as
    it did before; after [clear_cart()], [get_cart_items] returns no line for
    all users and for every user id of 64 bits. *)
Theorem call_clear_cart_then_get (f : database) :
  (forall u, int64 u = true ->
     fst (Call.get_cart_items (Some u) (snd (Call.clear_cart (Some u) f))) =
       Returns [] /\
     forall u', u' <> u ->
       fst (Call.get_cart_items (Some u') (snd (Call.clear_cart (Some u) f))) =
       fst (Call.get_cart_items (Some u') f)) /\
  fst (Call.get_cart_items None (snd (Call.clear_cart None f))) = Returns [] /\
  (forall u, int64 u = true ->
     fst (Call.get_cart_items (Some u) (snd (Call.clear_cart None f))) = Returns []).
Proof.
  destruct (clear_cart_then_get f) as [Hscoped Hall].
  destruct f as [t|].
  - split; [|split].
    + intros u Hu. destruct (Hscoped u) as [Hnone Hothers].
      rewrite call_clear_cart_eq, Hu. cbn [snd].
      rewrite clear_cart_Some in *. cbn [snd] in *. split.
      * rewrite call_get_cart_items_eq, Hu, Hnone. reflexivity.
      * intros u' Hne. apply call_get_cart_items_same. exact (Hothers u' Hne).
    + specialize (Hall None). rewrite call_clear_cart_eq. cbn [snd].
      rewrite clear_cart_Some in *. cbn [snd] in *.
      rewrite call_get_cart_items_eq, Hall. reflexivity.
    + intros u Hu. specialize (Hall (Some u)). rewrite call_clear_cart_eq. cbn [snd].
      rewrite clear_cart_Some in *. cbn [snd] in *.
      rewrite call_get_cart_items_eq, Hu, Hall. reflexivity.
  - split; [|split]; [intros u Hu; split; [|intros u' Hne]| |intros u Hu]; reflexivity.
Qed.

(** For a user id of 64 bits, the cart that [get_cart_items(u)] returns
    is the part of the result of [get_cart_items()] over all users that
    belongs to [u], in the same order and without the user column. *)
Theorem call_scoped_cart_of_all_carts (u : Z) (f : database) :
  int64 u = true ->
  exists all,
    Call.get_cart_items None f = (Returns all, f) /\
    Call.get_cart_items (Some u) f =
      (Returns
         (map item_without_user
            (filter (fun it => match item_user_id it with
                               | Some v => v =? u
                               | None => false
                               end) all)), f).
Proof.
  intros Hu. exists (map fetched (fst (get_cart_items None f))).
  split; [apply call_get_cart_items_all|].
  rewrite (call_get_cart_items_int64 u f Hu), (scoped_cart_of_all_carts u f).
  rewrite fetched_of_user. reflexivity.
Qed.

Lemma call_scoped_cart_of_all_carts_witness :
  int64 42 = true /\
  exists all,
    Call.get_cart_items None sample_store = (Returns all, sample_store) /\
    List.length all = 2%nat /\
    Call.get_cart_items (Some 42) sample_store =
      (Returns
         (map item_without_user
            (filter (fun it => match item_user_id it with
                               | Some v => v =? 42
                               | None => false
                               end) all)), sample_store).
Proof.
  split; [reflexivity|].
  destruct (call_scoped_cart_of_all_carts 42 sample_store eq_refl)
    as [all [Hall Hscoped]].
  exists all. split; [exact Hall|]. split; [|exact Hscoped].
  assert (Returns all = fst (Call.get_cart_items None sample_store)) as H
    by (rewrite Hall; reflexivity).
  vm_compute in H. injection H as ->. reflexivity.
Defined.

(** ** The keys of the cart *)

Lemma existsb_by_filter {A} (p : A -> bool) (l : list A) :
  existsb p l = match filter p l with [] => false | _ :: _ => true end.
Proof.
  induction l as [|a l IH]; simpl; [reflexivity|].
  destruct (p a); simpl; [reflexivity|exact IH].
Qed.

(** [add_to_cart] never removes a cart row and never changes the user
    or the coffee of one: the (user, coffee) pairs of the rows stay as they
    are, in order, with the pair (u, c) appended exactly when coffee [c]
    exists, no row of (u, c) exists, [c], [u] and the count are integers of
    64 bits and the cart has a rowid left.  A count that is zero or negative
    is stored like any other: adding [n] and then [-n] to a cart without a
    row of (u, c) leaves the row of (u, c) with count 0. *)
Theorem call_add_to_cart_keeps_rows now (u c n : Z) (f : database) :
  map cart_key (cart_rows (snd (Call.add_to_cart now u c n f))) =
    map cart_key (cart_rows f) ++
    (if coffee_exists c f && negb (existsb (is_cart_row_of u c) (cart_rows f))
        && int64 c && int64 u && int64 n && cart_items_room f
     then [(u, c)] else []) /\
  (coffee_exists c f = true ->
   NoDup (map ci_id (cart_rows f)) ->
   existsb (is_cart_row_of u c) (cart_rows f) = false ->
   int64 c = true -> int64 u = true -> int64 n = true ->
   cart_items_room f = true ->
   forall now', exists id,
     cart_rows (snd (Call.add_to_cart now' u c (- n)
                       (snd (Call.add_to_cart now u c n f)))) =
     cart_rows f ++ [mk_cart_item id u c 0 now]).
Proof.
  split.
  - destruct f as [t|]; [|reflexivity].
    destruct (add_to_cart_keeps_rows now u c n (Some t)) as [Hold _].
    rewrite call_add_to_cart_eq. unfold coffee_exists in *.
    cbn [cart_rows coffee_rows] in *.
    rewrite !existsb_by_filter in *.
    destruct (int64 c);
      [|cbn [snd cart_items]; rewrite !andb_false_r, app_nil_r; reflexivity].
    destruct (filter (fun x => c_id x =? c) (coffees t)) as [|x xs];
      [cbn [snd cart_items andb]; rewrite app_nil_r; reflexivity|].
    destruct (int64 u);
      [|cbn [snd cart_items]; rewrite !andb_false_r, app_nil_r; reflexivity].
    destruct (filter (is_cart_row_of u c) (cart_items t)) as [|e es].
    + destruct (int64 n);
        [|cbn [snd cart_items]; rewrite !andb_false_r, app_nil_r; reflexivity].
      destruct (cart_items_room (Some t));
        [|cbn [snd cart_items]; rewrite !andb_false_r, app_nil_r; reflexivity].
      cbn [snd]. exact Hold.
    + cbn [negb andb] in *.
      destruct (int64 (ci_count e + n) && int64 (ci_id e)); cbn [snd].
      * exact Hold.
      * cbn [cart_items]. rewrite app_nil_r. reflexivity.
  - intros Hex Hpk Hnone Hc Hu Hn Hroom now'.
    destruct (coffee_exists_Some _ _ Hex) as [t [x [xs [Hf Hx]]]]. subst f.
    cbn [cart_rows] in *.
    assert (filter (is_cart_row_of u c) (cart_items t) = []) as Hnorow.
    { rewrite existsb_by_filter in Hnone.
      destruct (filter (is_cart_row_of u c) (cart_items t)); [reflexivity|discriminate]. }
    set (id := next_rowid (cart_items_seq t) (map ci_id (cart_items t))).
    exists id.
    rewrite (call_add_to_cart_new now u c n t Hex Hc Hu Hn Hroom Hnorow).
    fold id. cbn [snd].
    set (t1 := mk_tables (coffees t) (coffees_seq t)
                 (cart_items t ++ [mk_cart_item id u c n now]) id).
    assert (is_cart_row_of u c (mk_cart_item id u c n now) = true) as Hrow
      by (unfold is_cart_row_of; cbn; rewrite !Z.eqb_refl; reflexivity).
    assert (int64 id = true) as Hid by (apply next_rowid_int64; exact Hroom).
    assert (int64 (ci_count (mk_cart_item id u c n now) + - n) = true) as Hsum
      by (cbn [ci_count]; rewrite Z.add_opp_diag_r; reflexivity).
    assert (NoDup (map ci_id (cart_rows (Some t1)))) as Hpk1.
    { cbn. rewrite map_app. apply NoDup_snoc; [exact Hpk|]. apply next_rowid_fresh. }
    rewrite (call_add_to_cart_existing now' u c (- n) t1 (cart_items t) []
               (mk_cart_item id u c n now) Hex Hc Hu eq_refl Hnorow Hrow Hsum Hid).
    cbn [snd].
    destruct (add_to_cart_existing now' u c (- n) (Some t1) (cart_items t) []
                (mk_cart_item id u c n now) Hex Hpk1 eq_refl Hnorow Hrow)
      as [_ [_ Hrows]].
    rewrite Hrows. unfold with_count. cbn. rewrite Z.add_opp_diag_r. reflexivity.
Qed.

(** * The handlers on calls *)

(** ** The cart view *)

(** For a user id of 64 bits, [view_cart] only reads the store.  It
    answers with the empty-cart message exactly when no cart row of the user
    references a coffee of the catalog.  Otherwise, when every line has its
    [total_price], it sends one Markdown message with the checkout button
    whose text is the header, one formatted line per item in the order of
    [get_cart_items], and the grand total; when a line has no [total_price]
    it sends nothing and stops with [TypeError]. *)
Theorem event_view_cart_reply (format_2f : float -> string) (message : Message)
    (f : database) :
  int64 (message_from_user_id message) = true ->
  exists items,
    Call.get_cart_items (Some (message_from_user_id message)) f = (Returns items, f) /\
    snd (Event.view_cart format_2f message f) = f /\
    (fst (Event.view_cart format_2f message f) =
       Done [request (send_message (message_chat_id message)
                        "Ваш кошик порожній" None None)] <->
     forall ci, In ci (cart_rows f) ->
                ci_user_id ci = message_from_user_id message ->
                coffee_exists (ci_coffee_id ci) f = false) /\
    (forall totals,
       items <> [] ->
       map item_total_price items = map Some totals ->
       fst (Event.view_cart format_2f message f) =
         Done [request
                 (send_message (message_chat_id message)
                    (("🛒 *Ваш кошик*" ++ newline ++ newline ++
                      fold_right
                        (fun line rest =>
                           ("• " ++ item_name (fst line) ++ " - "
                            ++ str (item_count (fst line))
                            ++ " x $" ++ format_2f (item_price (fst line))
                            ++ " = $" ++ format_2f (snd line) ++ newline ++ rest)%string)
                        ""%string (combine items totals))
                     ++ newline ++ "*Усього: $"
                     ++ format_2f (fold_left PrimFloat.add totals 0%float) ++ "*")
                    (Some [[mk_button "Оформити замовлення" "checkout"]])
                    (Some "Markdown"%string))]) /\
    (In None (map item_total_price items) ->
     fst (Event.view_cart format_2f message f) = Failed TypeError).
Proof.
  intros Hu.
  exists (map fetched (fst (get_cart_items (Some (message_from_user_id message)) f))).
  split; [apply call_get_cart_items_int64; exact Hu|].
  rewrite (view_cart_eq format_2f message f Hu). cbn [fst snd].
  split; [reflexivity|].
  rewrite <- cart_lines_empty_iff.
  destruct (fst (get_cart_items (Some (message_from_user_id message)) f))
    as [|l lines]; cbn [map].
  - split; [split; reflexivity|].
    split; [intros totals Hne; contradiction|intros []].
  - split; [|split].
    + split; [|discriminate].
      destruct (Event.view_cart_loop format_2f (fetched l :: map fetched lines))
        as [[text sum]|]; discriminate.
    + intros totals _ Htotals. unfold Event.view_cart_loop.
      rewrite (view_cart_loop_from format_2f (fetched l :: map fetched lines)
                 totals _ _ Htotals).
      rewrite !string_append_assoc. reflexivity.
    + intros Hnone.
      rewrite (view_cart_loop_type_error format_2f (fetched l :: map fetched lines));
        [reflexivity|exact Hnone].
Qed.

Lemma event_view_cart_reply_witness :
  int64 42 = true /\
  fst (Event.view_cart (fun _ => "7.00"%string) (mk_message 100 1 42 "🛒 Кошик")
         sample_store) =
    Done [request
            (send_message 100
               ("🛒 *Ваш кошик*" ++ newline ++ newline
                ++ "• Latte - 2 x $7.00 = $7.00" ++ newline
                ++ newline ++ "*Усього: $7.00*")
               (Some [[mk_button "Оформити замовлення" "checkout"]])
               (Some "Markdown"%string))].
Proof.
  split; [reflexivity|].
  destruct (event_view_cart_reply (fun _ => "7.00"%string)
              (mk_message 100 1 42 "🛒 Кошик") sample_store eq_refl)
    as [items [Hget [_ [_ [Htext _]]]]].
  assert (Returns items = fst (Call.get_cart_items (Some 42) sample_store)) as Hitems
    by (cbn [message_from_user_id] in Hget; rewrite Hget; reflexivity).
  vm_compute in Hitems. injection Hitems as ->.
  rewrite (Htext [7%float]); [reflexivity|discriminate|reflexivity].
Defined.

(** ** The add-to-cart buttons *)

(** How [add_to_cart] ends: [True] only for a coffee of the catalog with an
    id of 64 bits, the catalog staying as it is; [False] and an exception
    leave the store as it is, and the only exception is [OverflowError]. *)
Lemma call_add_to_cart_completion now (u c n : Z) (f : database) :
  match Call.add_to_cart now u c n f with
  | (Returns true, f') =>
      int64 c = true /\ coffee_exists c f = true /\ coffee_rows f' = coffee_rows f
  | (Returns false, f') => f' = f
  | (Raises e, f') => e = OverflowError /\ f' = f /\ initialized f
  end.
Proof.
  destruct f as [t|]; [|reflexivity].
  assert (initialized (Some t)) as Hinit by discriminate.
  pose proof (add_to_cart_returns now u c n (Some t)) as [_ Hrows].
  rewrite call_add_to_cart_eq. unfold coffee_exists. cbn [coffee_rows].
  rewrite existsb_by_filter.
  destruct (int64 c); [|auto].
  destruct (filter (fun x => c_id x =? c) (coffees t)) as [|x xs]; [reflexivity|].
  destruct (int64 u); [|auto].
  destruct (filter (is_cart_row_of u c) (cart_items t)) as [|e es].
  - destruct (int64 n); [|auto].
    destruct (cart_items_room (Some t)); [|reflexivity]. auto.
  - destruct (int64 (ci_count e + n) && int64 (ci_id e)); auto.
Qed.

Lemma in_filter_head {A} (p : A -> bool) (l : list A) (a : A) (rest : list A) :
  filter p l = a :: rest -> In a l /\ p a = true.
Proof.
  intros H. apply filter_In. rewrite H. left. reflexivity.
Qed.

(** The two buttons built by [create_coffee_detail_markup(id)] carry
    the tokens add_<id>_1 and add_<id>_3.  For an id and a count of 64 bits,
    a callback whose data is add_<id>_<count> passes the filter of
    [callback_add_to_cart] and of no other callback handler, is decoded to
    that id and count, and ends as [add_to_cart(user, id, count)] does: when
    the method returns [True] the query is answered once with the name of the
    coffee of that id; when it returns [False] the query is answered once
    with the error text and the store is unchanged; when it raises, the
    handler raises the same exception, answers nothing and leaves the store
    unchanged. *)
Theorem event_detail_buttons_add_to_cart now (coffee_id : Z) (call : CallbackQuery)
    (f : database) :
  int64 coffee_id = true ->
  map button_callback_data (List.concat (Bot.create_coffee_detail_markup coffee_id)) =
    [("add_" ++ str coffee_id ++ "_" ++ str 1)%string;
     ("add_" ++ str coffee_id ++ "_" ++ str 3)%string] /\
  forall count,
    int64 count = true ->
    call_data call = ("add_" ++ str coffee_id ++ "_" ++ str count)%string ->
    Bot.is_add_to_cart (call_data call) = true /\
    Bot.is_coffee_details (call_data call) = false /\
    Bot.is_checkout (call_data call) = false /\
    Bot.is_list_coffee (call_data call) = false /\
    match Call.add_to_cart now (call_from_user_id call) coffee_id count f with
    | (Returns true, f') =>
        exists coffee,
          In coffee (coffee_rows f) /\ c_id coffee = coffee_id /\
          Event.callback_add_to_cart now call f =
            (Done [answer_callback_query call
                     ("Додано " ++ str count ++ " " ++ c_name coffee ++ " до кошика!")],
             f')
    | (Returns false, f') =>
        f' = f /\
        Event.callback_add_to_cart now call f =
          (Done [answer_callback_query call
                   "Виникла помилка, спробуйте будь-ласка пізніше"], f)
    | (Raises e, f') =>
        f' = f /\ Event.callback_add_to_cart now call f = (Failed e, f)
    end.
Proof.
  intros Hid. split; [reflexivity|].
  intros count Hcount Hdata.
  split; [unfold Bot.is_add_to_cart; rewrite Hdata; apply startswith_append|].
  unfold Bot.is_coffee_details, Bot.is_checkout, Bot.is_list_coffee, Python.startswith.
  repeat (split; [rewrite Hdata; cbn; reflexivity|]).
  unfold Event.callback_add_to_cart.
  rewrite Hdata, split_add_token. cbn [nth_error]. rewrite !int_str.
  pose proof (call_add_to_cart_completion now (call_from_user_id call)
                coffee_id count f) as Hend.
  destruct (Call.add_to_cart now (call_from_user_id call) coffee_id count f)
    as [[[|]|e] f'].
  - destruct Hend as [_ [Hex Hrows]].
    rewrite (call_list_coffee_int64 coffee_id f' Hid), Hrows.
    unfold coffee_exists in Hex. rewrite existsb_by_filter in Hex.
    destruct (filter (fun c => c_id c =? coffee_id) (coffee_rows f))
      as [|coffee rest] eqn:E; [discriminate|].
    destruct (in_filter_head _ _ _ _ E) as [Hin Hkey]. apply Z.eqb_eq in Hkey.
    exists coffee. split; [exact Hin|]. split; [exact Hkey|reflexivity].
  - subst f'. split; reflexivity.
  - destruct Hend as [_ [-> _]]. split; reflexivity.
Qed.

Lemma event_detail_buttons_add_to_cart_witness :
  int64 2 = true /\
  Event.callback_add_to_cart "2024-01-01 11:00:00"
    (mk_call 42 (mk_message 100 1 42 "") "add_2_3") sample_store =
    (Done [answer_callback_query (mk_call 42 (mk_message 100 1 42 "") "add_2_3")
             "Додано 3 Espresso до кошика!"],
     snd (Call.add_to_cart "2024-01-01 11:00:00" 42 2 3 sample_store)).
Proof.
  split; [reflexivity|].
  destruct (event_detail_buttons_add_to_cart "2024-01-01 11:00:00" 2
              (mk_call 42 (mk_message 100 1 42 "") "add_2_3") sample_store eq_refl)
    as [_ Hcall].
  destruct (Hcall 3 eq_refl eq_refl) as [_ [_ [_ [_ Hend]]]].
  vm_compute. reflexivity.
Defined.

(** On callback data that is ASCII text within the limit of [int()],
    when [callback_add_to_cart] raises, the store is unchanged and nothing
    was answered, and the exception tells the cause: [IndexError] when the
    data has fewer than three parts; [ValueError] when the second or the
    third part is not an integer literal; [OverflowError] when both parts are
    integers and [add_to_cart] raised it.  The lookup
    [list_coffee(coffee_id)[0]] after a successful [add_to_cart] never
    fails. *)
Theorem event_callback_add_to_cart_failure now (call : CallbackQuery)
    (f : database) (e : exception) :
  plain_text (call_data call) = true ->
  fst (Event.callback_add_to_cart now call f) = Failed e ->
  snd (Event.callback_add_to_cart now call f) = f /\
  (e = IndexError /\ nth_error (Python.split "_" (call_data call)) 2 = None \/
   e = ValueError /\
     (exists part,
        (nth_error (Python.split "_" (call_data call)) 1 = Some part \/
         nth_error (Python.split "_" (call_data call)) 2 = Some part) /\
        Python.int part = None) \/
   e = OverflowError /\
     (exists part1 part2 coffee_id count,
        nth_error (Python.split "_" (call_data call)) 1 = Some part1 /\
        nth_error (Python.split "_" (call_data call)) 2 = Some part2 /\
        Python.int part1 = Some coffee_id /\ Python.int part2 = Some count /\
        Call.add_to_cart now (call_from_user_id call) coffee_id count f =
          (Raises OverflowError, f))).
Proof.
  intros _. unfold Event.callback_add_to_cart.
  destruct (Python.split "_" (call_data call)) as [|p0 [|p1 [|p2 rest]]] eqn:Es;
    cbn [nth_error].
  - intros H. injection H as <-. split; [reflexivity|left; split; reflexivity].
  - intros H. injection H as <-. split; [reflexivity|left; split; reflexivity].
  - destruct (Python.int p1) as [coffee_id|] eqn:E1; intros H; injection H as <-.
    + split; [reflexivity|left; split; reflexivity].
    + split; [reflexivity|]. right. left. split; [reflexivity|].
      exists p1. split; [left; reflexivity|exact E1].
  - destruct (Python.int p1) as [coffee_id|] eqn:E1.
    2:{ intros H. injection H as <-. split; [reflexivity|]. right. left.
        split; [reflexivity|]. exists p1. split; [left; reflexivity|exact E1]. }
    destruct (Python.int p2) as [count|] eqn:E2.
    2:{ intros H. injection H as <-. split; [reflexivity|]. right. left.
        split; [reflexivity|]. exists p2. split; [right; reflexivity|exact E2]. }
    pose proof (call_add_to_cart_completion now (call_from_user_id call)
                  coffee_id count f) as Hend.
    destruct (Call.add_to_cart now (call_from_user_id call) coffee_id count f)
      as [[[|]|e'] f'] eqn:Ecall.
    + destruct Hend as [Hid [Hex Hrows]].
      rewrite (call_list_coffee_int64 coffee_id f' Hid), Hrows.
      unfold coffee_exists in Hex. rewrite existsb_by_filter in Hex.
      destruct (filter (fun c => c_id c =? coffee_id) (coffee_rows f));
        [discriminate|]. intros H. discriminate H.
    + intros H. discriminate H.
    + destruct Hend as [-> [-> _]]. intros H. injection H as <-.
      split; [reflexivity|]. right. right. split; [reflexivity|].
      exists p1, p2, coffee_id, count. repeat split; auto.
Qed.

Lemma event_callback_add_to_cart_failure_witness :
  plain_text "add_1_9223372036854775808" = true /\
  fst (Event.callback_add_to_cart "2024-01-01 11:00:00"
         (mk_call 42 (mk_message 100 1 42 "") "add_1_9223372036854775808")
         sample_store) = Failed OverflowError /\
  snd (Event.callback_add_to_cart "2024-01-01 11:00:00"
         (mk_call 42 (mk_message 100 1 42 "") "add_1_9223372036854775808")
         sample_store) = sample_store.
Proof.
  assert (fst (Event.callback_add_to_cart "2024-01-01 11:00:00"
                 (mk_call 42 (mk_message 100 1 42 "") "add_1_9223372036854775808")
                 sample_store) = Failed OverflowError) as Hfail
    by (vm_compute; reflexivity).
  split; [vm_compute; reflexivity|]. split; [exact Hfail|].
  exact (proj1 (event_callback_add_to_cart_failure "2024-01-01 11:00:00"
                  (mk_call 42 (mk_message 100 1 42 "") "add_1_9223372036854775808")
                  sample_store OverflowError eq_refl Hfail)).
Defined.

(** ** The catalog buttons *)

Lemma event_show_coffee_details_eq (format_2f : float -> string)
    (chat_id coffee_id : Z) (f : database) :
  int64 coffee_id = true ->
  Event.show_coffee_details format_2f chat_id coffee_id f =
  (Done
     [match filter (fun c => c_id c =? coffee_id) (coffee_rows f) with
      | [] => request (send_message chat_id "Кава не знайдена!" None None)
      | coffee :: _ =>
          match c_picture_url coffee with
          | Some url =>
              match Python.strip url with
              | EmptyString =>
                  request (send_message chat_id
                             (Bot.format_coffee_details format_2f coffee)
                             (Some (Bot.create_coffee_detail_markup coffee_id))
                             (Some "Markdown"%string))
              | String _ _ =>
                  send_photo chat_id url (Bot.format_coffee_details format_2f coffee)
                             (Bot.create_coffee_detail_markup coffee_id) "Markdown"
              end
          | None =>
              request (send_message chat_id
                         (Bot.format_coffee_details format_2f coffee)
                         (Some (Bot.create_coffee_detail_markup coffee_id))
                         (Some "Markdown"%string))
          end
      end], f).
Proof.
  intros Hid. unfold Event.show_coffee_details.
  rewrite (call_list_coffee_int64 coffee_id f Hid).
  destruct (filter (fun c => c_id c =? coffee_id) (coffee_rows f)) as [|coffee rest];
    [reflexivity|].
  destruct (c_picture_url coffee) as [url|]; [|reflexivity].
  destruct (Python.strip url); reflexivity.
Qed.

(** For every coffee of the catalog (ids distinct, the id of 64 bits),
    the menu sent by [list_coffees] contains a button labelled
    '<name> - $<price>' with the token coffee_<id>; a callback with that
    token passes the filter of [callback_coffee_details] only, is decoded to
    the id, and is answered once on the unchanged store with the details of
    that coffee and its two add buttons: as a photo of the stored picture URL
    when that URL has a character that [strip()] keeps, and as a Markdown
    text message when the URL is missing or blank. *)
Theorem event_catalog_buttons_open_details (format_2f : float -> string)
    (message : Message) (call : CallbackQuery) (f : database) (coffee : coffee_row) :
  NoDup (map c_id (coffee_rows f)) ->
  In coffee (coffee_rows f) ->
  int64 (c_id coffee) = true ->
  let menu := Bot.create_coffee_list_markup format_2f (fst (list_coffee None f)) in
  let text := Bot.format_coffee_details format_2f coffee in
  let markup := Bot.create_coffee_detail_markup (c_id coffee) in
  let chat_id := message_chat_id (call_message call) in
  Bot.list_coffees format_2f message f =
    ([send_message (message_chat_id message)
        "Наше меню кави (настиність, щоб отримати більше інформації):"
        (Some menu) None], f) /\
  In [mk_button (c_name coffee ++ " - $" ++ format_2f (c_price coffee))
                ("coffee_" ++ str (c_id coffee))] menu /\
  (call_data call = ("coffee_" ++ str (c_id coffee))%string ->
   Bot.is_coffee_details (call_data call) = true /\
   Bot.is_add_to_cart (call_data call) = false /\
   Bot.is_checkout (call_data call) = false /\
   Bot.is_list_coffee (call_data call) = false /\
   Event.callback_coffee_details format_2f call f =
     (Done
        [match c_picture_url coffee with
         | Some url =>
             match Python.strip url with
             | EmptyString =>
                 request (send_message chat_id text (Some markup)
                            (Some "Markdown"%string))
             | String _ _ => send_photo chat_id url text markup "Markdown"
             end
         | None =>
             request (send_message chat_id text (Some markup) (Some "Markdown"%string))
         end], f)).
Proof.
  intros Hpk Hin Hid menu text markup chat_id.
  assert (In coffee (order_by_name (coffee_rows f))) as Hsorted
    by (apply (Permutation_in _ (order_by_name_perm _)); exact Hin).
  split; [|split].
  - unfold Bot.list_coffees, menu.
    change CoffeeRepository.list_coffee with list_coffee.
    rewrite list_coffee_eq. cbn [fst].
    destruct (order_by_name (coffee_rows f)); [destruct Hsorted|reflexivity].
  - unfold menu, Bot.create_coffee_list_markup. rewrite list_coffee_eq. cbn [fst].
    apply (in_map (fun c => [mk_button (c_name c ++ " - $" ++ format_2f (c_price c))
                                       ("coffee_" ++ str (c_id c))])).
    exact Hsorted.
  - intros Hdata.
    split; [unfold Bot.is_coffee_details; rewrite Hdata; apply startswith_append|].
    unfold Bot.is_add_to_cart, Bot.is_checkout, Bot.is_list_coffee, Python.startswith.
    repeat (split; [rewrite Hdata; cbn; reflexivity|]).
    unfold Event.callback_coffee_details.
    rewrite Hdata, split_coffee_token. cbn [nth_error]. rewrite int_str.
    rewrite (event_show_coffee_details_eq format_2f _ _ f Hid).
    rewrite (filter_by_id_unique coffee _ Hpk Hin). reflexivity.
Qed.

Lemma event_catalog_buttons_open_details_witness :
  NoDup (map c_id (coffee_rows sample_store)) /\
  In (mk_coffee 2 "Espresso" None None 2%float
        "2024-01-01 10:00:01" "2024-01-01 10:00:01") (coffee_rows sample_store) /\
  int64 2 = true /\
  In [mk_button ("Espresso" ++ " - $" ++ "2.00") ("coffee_" ++ str 2)]
     (Bot.create_coffee_list_markup (fun _ => "2.00"%string)
        (fst (list_coffee None sample_store))).
Proof.
  assert (In (mk_coffee 2 "Espresso" None None 2%float
                "2024-01-01 10:00:01" "2024-01-01 10:00:01")
             (coffee_rows sample_store)) as Hin by (right; left; reflexivity).
  split; [exact (proj1 sample_store_primary_keys)|]. split; [exact Hin|].
  split; [reflexivity|].
  exact (proj1 (proj2 (event_catalog_buttons_open_details (fun _ => "2.00"%string)
                         (mk_message 5 6 42 "") (mk_call 42 (mk_message 5 6 42 "") "")
                         sample_store _ (proj1 sample_store_primary_keys) Hin eq_refl))).
Defined.

(** A callback with the token coffee_<id> of an id of 64 bits that no
    coffee of the catalog has (for instance the button of a deleted coffee)
    is answered with the not-found message and leaves the store unchanged. *)
Theorem event_stale_coffee_button (format_2f : float -> string) (coffee_id : Z)
    (call : CallbackQuery) (f : database) :
  int64 coffee_id = true ->
  coffee_exists coffee_id f = false ->
  call_data call = ("coffee_" ++ str coffee_id)%string ->
  Event.callback_coffee_details format_2f call f =
    (Done [request (send_message (message_chat_id (call_message call))
                      "Кава не знайдена!" None None)], f).
Proof.
  intros Hid Hex Hdata. unfold Event.callback_coffee_details.
  rewrite Hdata, split_coffee_token. cbn [nth_error]. rewrite int_str.
  rewrite (event_show_coffee_details_eq format_2f _ _ f Hid).
  unfold coffee_exists in Hex. rewrite (existsb_false_filter _ _ Hex). reflexivity.
Qed.

Lemma event_stale_coffee_button_witness :
  int64 9 = true /\
  coffee_exists 9 sample_store = false /\
  Event.callback_coffee_details (fun _ => "2.00"%string)
    (mk_call 42 (mk_message 5 6 42 "") "coffee_9") sample_store =
    (Done [request (send_message 5 "Кава не знайдена!" None None)], sample_store).
Proof.
  split; [reflexivity|]. split; [reflexivity|].
  exact (event_stale_coffee_button (fun _ => "2.00"%string) 9
           (mk_call 42 (mk_message 5 6 42 "") "coffee_9") sample_store
           eq_refl eq_refl eq_refl).
Defined.

(** [callback_coffee_details] never changes the store.  For callback
    data that passes its filter (it starts with coffee_) and is ASCII text
    within the limit of [int()], the part after the first underscore always
    exists, so the handler never fails with [IndexError]: it fails with
    [ValueError] when that part is not an integer literal, with
    [OverflowError] when it is an integer outside 64 bits and the tables
    exist, and in no other case. *)
Theorem event_callback_coffee_details_failure (format_2f : float -> string)
    (call : CallbackQuery) (f : database) :
  snd (Event.callback_coffee_details format_2f call f) = f /\
  (Bot.is_coffee_details (call_data call) = true ->
   plain_text (call_data call) = true ->
   exists part,
     nth_error (Python.split "_" (call_data call)) 1 = Some part /\
     (forall e,
        fst (Event.callback_coffee_details format_2f call f) = Failed e <->
        e = ValueError /\ Python.int part = None \/
        e = OverflowError /\
          exists coffee_id,
            Python.int part = Some coffee_id /\ int64 coffee_id = false /\
            initialized f)).
Proof.
  assert (forall chat_id coffee_id,
            snd (Event.show_coffee_details format_2f chat_id coffee_id f) = f /\
            forall e,
              fst (Event.show_coffee_details format_2f chat_id coffee_id f) = Failed e <->
              e = OverflowError /\ int64 coffee_id = false /\ initialized f) as Hshow.
  { intros chat_id coffee_id. destruct (int64 coffee_id) eqn:Hid.
    - rewrite (event_show_coffee_details_eq format_2f chat_id coffee_id f Hid).
      split; [reflexivity|]. intros e. cbn [fst].
      split; [discriminate|intros [_ [H _]]; discriminate].
    - unfold Event.show_coffee_details. destruct f as [t|].
      + rewrite call_list_coffee_eq, Hid. split; [reflexivity|]. intros e. cbn [fst].
        split; [intros H; injection H as <-; repeat split; discriminate|].
        intros [-> _]. reflexivity.
      + split; [reflexivity|]. intros e. cbn [fst].
        split; [discriminate|intros [_ [_ H]]; contradiction H; reflexivity]. }
  unfold Event.callback_coffee_details. split.
  - destruct (nth_error (Python.split "_" (call_data call)) 1) as [part|];
      [|reflexivity].
    destruct (Python.int part) as [coffee_id|]; [|reflexivity].
    apply Hshow.
  - intros Hfilter _.
    apply startswith_inv in Hfilter as [rest ->].
    change ("coffee_" ++ rest)%string with ("coffee" ++ String "_" rest)%string.
    rewrite split_at_sep by reflexivity.
    pose proof (split_not_nil "_" rest) as Hne.
    destruct (Python.split "_" rest) as [|part parts]; [contradiction|].
    cbn [nth_error]. exists part. split; [reflexivity|].
    intros e. destruct (Python.int part) as [coffee_id|].
    + destruct (Hshow (message_chat_id (call_message call)) coffee_id) as [_ Hfail].
      rewrite Hfail. split.
      * intros [-> [Hid Hinit]]. right. split; [reflexivity|].
        exists coffee_id. repeat split; assumption.
      * intros [[_ H]|[-> [id' [H [Hid Hinit]]]]]; [discriminate|].
        injection H as <-. repeat split; assumption.
    + cbn [fst]. split.
      * intros H. injection H as <-. left. split; reflexivity.
      * intros [[-> _]|[_ [id' [H _]]]]; [reflexivity|discriminate].
Qed.

(** ** Start-up *)






